(** * Password strength meter: the analysis functions of [main.py]

    A shallow embedding of the string-analysis layer of the password
    strength meter ([analyze_entropy], [analyze_character_distribution],
    [find_patterns], [calculate_crack_time], [get_suggestions]) together
    with the properties its specification states about them.

    Modelling choices, all taken from the Python source:
    - a Python [str] is the list of its code points ([list N]); a
      one-character string is one code point;
    - a Python [int] is a [Z];
    - a Python [dict] with string keys is a [gmap string Z]; reading a
      missing key ([KeyError]) and indexing a string out of range
      ([IndexError]) are the error results of the [option] monad;
    - the entropy, a Python [float], is the real number it approximates:
      [math.log2] and [*] are the exact real operations;
    - in [calculate_crack_time] the float operations [**], [/] and [<] are
      the interpreter's and stay a parameter, with the [OverflowError] of
      [2 ** x] as an error result. *)

From Stdlib Require Import Reals Lra.
From Stdlib Require Import Ascii String.
From stdpp Require Import gmap strings list fin_maps.

(** ** Python strings *)

Module Py.

(** The code points of a string literal of the source. *)
Definition codepoints (s : string) : list N :=
  N_of_ascii <$> list_ascii_of_string s.

(** [len(s)] *)
Definition len {A} (s : list A) : Z := Z.of_nat (length s).

(** [sum(xs)]: left to right, from 0. *)
Definition sum (xs : list Z) : Z := foldl Z.add 0%Z xs.

(** [range(n)]; empty when [n <= 0]. *)
Definition range (n : Z) : list nat := seq 0 (Z.to_nat n).

(** [s[i]] for [i >= 0]; [None] is [IndexError]. *)
Definition index (s : list N) (i : nat) : option N := s !! i.

(** [s[i:j]] for [0 <= i <= j]: slices clamp and never raise. *)
Definition slice (s : list N) (i j : nat) : list N := take (j - i) (drop i s).

(** [needle in hay] for strings: [needle] occurs as a contiguous block. *)
Fixpoint startswith (hay needle : list N) {struct needle} : bool :=
  match needle, hay with
  | [], _ => true
  | _ :: _, [] => false
  | a :: needle', b :: hay' => bool_decide (a = b) && startswith hay' needle'
  end.

Fixpoint contains (hay needle : list N) : bool :=
  startswith hay needle ||
  match hay with
  | [] => false
  | _ :: hay' => contains hay' needle
  end.

(** [string.ascii_lowercase], [string.ascii_uppercase], [string.digits],
    [string.punctuation] and [string.ascii_letters] of the standard
    library. The double quote of [string.punctuation] is code point 34. *)
Definition ascii_lowercase : list N := codepoints "abcdefghijklmnopqrstuvwxyz".
Definition ascii_uppercase : list N := codepoints "ABCDEFGHIJKLMNOPQRSTUVWXYZ".
Definition digits : list N := codepoints "0123456789".
Definition punctuation : list N :=
  codepoints "!" ++ [34%N] ++ codepoints "#$%&'()*+,-./:;<=>?@[\]^_`{|}~".
Definition ascii_letters : list N := ascii_lowercase ++ ascii_uppercase.

End Py.

(** ** [analyze_character_distribution] *)

Definition analyze_character_distribution (password : list N) : gmap string Z :=
  {[ "lowercase" := Py.sum ((λ _, 1%Z) <$> filter (λ c, c ∈ Py.ascii_lowercase) password);
     "uppercase" := Py.sum ((λ _, 1%Z) <$> filter (λ c, c ∈ Py.ascii_uppercase) password);
     "digits" := Py.sum ((λ _, 1%Z) <$> filter (λ c, c ∈ Py.digits) password);
     "special" := Py.sum ((λ _, 1%Z) <$> filter (λ c, c ∈ Py.punctuation) password);
     "other" := Py.sum ((λ _, 1%Z) <$>
                  filter (λ c, c ∉ Py.ascii_letters ++ Py.digits ++ Py.punctuation) password) ]}.

(** [sum(d.values())] *)
Definition dict_values_sum (d : gmap string Z) : Z :=
  map_fold (λ _ v acc, (v + acc)%Z) 0%Z d.

(** The number of characters of [password] that satisfy [P], the way the
    source counts them: [sum(1 for c in password if P c)]. *)
Definition count_if (P : N → Prop) `{!∀ c, Decision (P c)} (password : list N) : Z :=
  Py.sum ((λ _, 1%Z) <$> filter P password).

Definition indicator (P : Prop) `{!Decision P} : Z := if decide P then 1%Z else 0%Z.

(** ** [analyze_entropy] *)

(** [math.log2] *)
Definition log2 (x : R) : R := Rlog 2 x.

(** The value of the local variable [char_set_size] when the entropy is
    computed: the sizes of the classes seen in the password, or the
    minimum 10 when none was seen. *)
Definition char_set_size (password : list N) : Z :=
  let char_set_size := 0%Z in
  let char_set_size :=
    if decide (Exists (λ c, c ∈ Py.ascii_lowercase) password)
    then (char_set_size + 26)%Z else char_set_size in
  let char_set_size :=
    if decide (Exists (λ c, c ∈ Py.ascii_uppercase) password)
    then (char_set_size + 26)%Z else char_set_size in
  let char_set_size :=
    if decide (Exists (λ c, c ∈ Py.digits) password)
    then (char_set_size + 10)%Z else char_set_size in
  let char_set_size :=
    if decide (Exists (λ c, c ∈ Py.punctuation) password)
    then (char_set_size + Py.len Py.punctuation)%Z else char_set_size in
  if decide (char_set_size = 0%Z) then 10%Z else char_set_size.

Definition analyze_entropy (password : list N) : R :=
  match password with
  | [] => 0%R
  | _ :: _ => (log2 (IZR (char_set_size password)) * IZR (Py.len password))%R
  end.

(** The four recognised character classes. *)
Inductive char_class : Set := Lowercase | Uppercase | Digit | Punctuation.

Definition class_chars (k : char_class) : list N :=
  match k with
  | Lowercase => Py.ascii_lowercase
  | Uppercase => Py.ascii_uppercase
  | Digit => Py.digits
  | Punctuation => Py.punctuation
  end.

(** Class [k] is present in the password. *)
Definition has_class (k : char_class) (password : list N) : Prop :=
  Exists (λ c, c ∈ class_chars k) password.

#[global] Instance has_class_dec k password : Decision (has_class k password).
Proof. unfold has_class. apply _. Defined.

(** A password without any character of the four classes. *)
Definition unrecognized (password : list N) : Prop :=
  ∀ k, ¬ has_class k password.

(** ** [calculate_crack_time] *)

(** The float operations of the interpreter that [calculate_crack_time]
    uses, on the finite floats: [2 ** x], which raises [OverflowError]
    ([None]) when the result is out of range, that is from [x = 1024] on;
    [x / n] and [x < n] for an integer [n]. Rounding is the interpreter's
    and stays a parameter; [value] is the number a float stands for, and
    comparing with an integer compares the numbers. *)
Class PyFloat := {
  float : Type;
  value : float → R;
  pow2 : float → option float;
  div_int : float → Z → float;
  lt_int : float → Z → bool;
  lt_int_value : ∀ x n, lt_int x n = true ↔ (value x < IZR n)%R;
  pow2_in_range : ∀ x, (value x < 1024)%R → is_Some (pow2 x);
  pow2_overflow : ∀ x, (1024 <= value x)%R → pow2 x = None
}.

Definition calculate_crack_time `{PyFloat} (entropy : float)
  : option (float * string) :=
  let guesses_per_second := 10000000000%Z in
  guesses ← pow2 entropy;
  let seconds := div_int guesses guesses_per_second in
  if lt_int seconds 60 then Some (seconds, "seconds"%string)
  else if lt_int seconds 3600 then Some (div_int seconds 60, "minutes"%string)
  else if lt_int seconds 86400 then Some (div_int seconds 3600, "hours"%string)
  else if lt_int seconds 31536000 then Some (div_int seconds 86400, "days"%string)
  else if lt_int seconds (31536000 * 100)
       then Some (div_int seconds 31536000, "years"%string)
  else Some (div_int seconds 31536000, "years"%string).

(** Floats without rounding: the real numbers, with the overflow of
    [2 ** x] at 1024. Closed examples run on them. *)
Definition ideal_float : PyFloat.
Proof.
  refine {| float := R;
            value := λ x, x;
            pow2 := λ x, if Rlt_dec x 1024 then Some (Rpower 2 x) else None;
            div_int := λ x n, (x / IZR n)%R;
            lt_int := λ x n, if Rlt_dec x (IZR n) then true else false |}.
  - intros x n. destruct (Rlt_dec x (IZR n)); split; solve [done|congruence].
  - intros x Hx. destruct (Rlt_dec x 1024); [by eexists|done].
  - intros x Hx. destruct (Rlt_dec x 1024); [lra|done].
Defined.

(** ** [find_patterns] *)

(** [str.lower] is the interpreter's: on a string of ASCII characters it
    maps [A-Z] to [a-z] and leaves the rest; on any other string it
    follows the Unicode case tables, which stay a parameter here. *)
Class UnicodeTables := unicode_lower : list N → list N.

Definition ascii_lower (c : N) : N :=
  if decide (65 ≤ c ∧ c ≤ 90)%N then (c + 32)%N else c.

Definition lower `{UnicodeTables} (s : list N) : list N :=
  if decide (Forall (λ c, (c < 128)%N) s) then ascii_lower <$> s
  else unicode_lower s.

(** [for x in xs: body], threading the state; an error stops the loop. *)
Fixpoint for_each {A S : Type} (xs : list A) (body : A → S → option S) (s : S)
  : option S :=
  match xs with
  | [] => Some s
  | x :: xs' => s' ← body x s; for_each xs' body s'
  end.

(** [patterns[key] += 1] *)
Definition increment (key : string) (patterns : gmap string Z)
  : option (gmap string Z) :=
  v ← patterns !! key; Some (<[key := (v + 1)%Z]> patterns).

(** [ord(password[i]) + 1 == ord(password[i+1]) and
     ord(password[i+1]) + 1 == ord(password[i+2])] *)
Definition sequential_at (password : list N) (i : nat) : option bool :=
  a ← Py.index password i;
  b ← Py.index password (i + 1);
  if decide (a + 1 = b)%N then
    b' ← Py.index password (i + 1);
    c ← Py.index password (i + 2);
    Some (bool_decide (b' + 1 = c)%N)
  else Some false.

(** [password[i] == password[i+1] == password[i+2]] *)
Definition repeated_at (password : list N) (i : nat) : option bool :=
  a ← Py.index password i;
  b ← Py.index password (i + 1);
  if decide (a = b) then
    c ← Py.index password (i + 2);
    Some (bool_decide (b = c))
  else Some false.

Definition keyboard_rows : list (list N) :=
  [ Py.codepoints "qwertyuiop"; Py.codepoints "asdfghjkl"; Py.codepoints "zxcvbnm" ].

Definition common_words : list (list N) :=
  Py.codepoints <$>
    [ "password"; "123456"; "qwerty"; "admin"; "welcome";
      "login"; "abc123"; "letmein"; "monkey"; "football" ]%string.

Definition find_patterns `{UnicodeTables} (password : list N)
  : option (gmap string Z) :=
  let patterns : gmap string Z :=
    {[ "sequential_chars" := 0%Z; "repeated_chars" := 0%Z;
       "keyboard_patterns" := 0%Z; "common_words" := 0%Z ]} in
  patterns ← for_each (Py.range (Py.len password - 2)) (λ i patterns,
    hit ← sequential_at password i;
    if hit : bool then increment "sequential_chars" patterns else Some patterns)
    patterns;
  patterns ← for_each (Py.range (Py.len password - 2)) (λ i patterns,
    hit ← repeated_at password i;
    if hit : bool then increment "repeated_chars" patterns else Some patterns)
    patterns;
  patterns ← for_each keyboard_rows (λ row patterns,
    for_each (Py.range (Py.len row - 2)) (λ i patterns,
      let pattern := lower (Py.slice row i (i + 3)) in
      if Py.contains (lower password) pattern
      then increment "keyboard_patterns" patterns else Some patterns)
      patterns)
    patterns;
  patterns ← for_each common_words (λ word patterns,
    if Py.contains (lower password) word
    then increment "common_words" patterns else Some patterns)
    patterns;
  Some patterns.

(** ** [get_suggestions] *)

(** The string literals of [get_suggestions], in the order of the source. *)
Module Text.
Definition prompt : string :=
  "Enter a password to get suggestions".
Definition longer : string :=
  "Make your password longer (aim for at least 12 characters)".
Definition add_lowercase : string :=
  "Add lowercase letters".
Definition add_uppercase : string :=
  "Add uppercase letters".
Definition add_numbers : string :=
  "Add numbers".
Definition add_special : string :=
  "Add special characters (e.g., @, #, $, %)".
Definition avoid_sequential : string :=
  "Avoid sequential characters (e.g., abc, 123)".
Definition avoid_repeated : string :=
  "Avoid repeated characters (e.g., aaa, 111)".
Definition avoid_keyboard : string :=
  "Avoid keyboard patterns (e.g., qwerty, asdf)".
Definition avoid_common : string :=
  "Avoid common words and patterns".
Definition looks_good : string :=
  "Your password looks good! Remember to use different passwords for different accounts.".
End Text.

Definition get_suggestions (password : list N)
    (char_distribution patterns : gmap string Z) : option (list string) :=
  let suggestions : list string := [] in
  if decide (password = []) then
    Some [Text.prompt]
  else
  let suggestions :=
    if decide (Py.len password < 12)%Z
    then suggestions ++ [Text.longer]
    else suggestions in
  v ← char_distribution !! "lowercase";
  let suggestions :=
    if decide (v = 0%Z) then suggestions ++ [Text.add_lowercase]
    else suggestions in
  v ← char_distribution !! "uppercase";
  let suggestions :=
    if decide (v = 0%Z) then suggestions ++ [Text.add_uppercase]
    else suggestions in
  v ← char_distribution !! "digits";
  let suggestions :=
    if decide (v = 0%Z) then suggestions ++ [Text.add_numbers]
    else suggestions in
  v ← char_distribution !! "special";
  let suggestions :=
    if decide (v = 0%Z)
    then suggestions ++ [Text.add_special]
    else suggestions in
  v ← patterns !! "sequential_chars";
  let suggestions :=
    if decide (v > 0)%Z
    then suggestions ++ [Text.avoid_sequential]
    else suggestions in
  v ← patterns !! "repeated_chars";
  let suggestions :=
    if decide (v > 0)%Z
    then suggestions ++ [Text.avoid_repeated]
    else suggestions in
  v ← patterns !! "keyboard_patterns";
  let suggestions :=
    if decide (v > 0)%Z
    then suggestions ++ [Text.avoid_keyboard]
    else suggestions in
  v ← patterns !! "common_words";
  let suggestions :=
    if decide (v > 0)%Z
    then suggestions ++ [Text.avoid_common]
    else suggestions in
  let suggestions :=
    if decide (Py.len suggestions = 0)%Z
    then suggestions ++ [Text.looks_good]
    else suggestions in
  Some suggestions.

(** ** Counting, as the specification words it *)

(** The length-3 contiguous slices of the keyboard rows, row by row. *)
Definition keyboard_slices : list (list N) :=
  row ← keyboard_rows;
  (λ i, Py.slice row i (i + 3)) <$> Py.range (Py.len row - 2).

(** [needle] occurs in [hay] as a contiguous block. *)
Definition occurs_in (needle hay : list N) : Prop :=
  ∃ before after, hay = before ++ needle ++ after.

(** The number of elements of [xs] on which [f] holds. *)
Definition count_hits {A} (f : A → bool) (xs : list A) : Z :=
  Py.len (filter (λ x, f x) xs).

(** The windows of the password that start a sequential run, and those
    that start a repeated run. *)
Definition sequential_hits (password : list N) : Z :=
  count_hits (λ i, default false (sequential_at password i))
             (Py.range (Py.len password - 2)).

Definition repeated_hits (password : list N) : Z :=
  count_hits (λ i, default false (repeated_at password i))
             (Py.range (Py.len password - 2)).

(** The keyboard slices that occur in the password, case-insensitively. *)
Definition keyboard_hits `{UnicodeTables} (password : list N) : list (list N) :=
  filter (λ s, Py.contains (lower password) (lower s)) keyboard_slices.

(** The common words that occur in the password, case-insensitively. *)
Definition common_word_hits `{UnicodeTables} (password : list N) : list (list N) :=
  filter (λ w, Py.contains (lower password) w) common_words.

(** One counter of the result of [find_patterns]: [find_patterns(password)[key]]. *)
Definition pattern_count `{UnicodeTables} (key : string) (password : list N)
  : option Z :=
  patterns ← find_patterns password; patterns !! key.

(** The Unicode tables are never consulted on ASCII input; closed examples
    run with tables that leave every other string unchanged. *)
Definition no_tables : UnicodeTables := λ s, s.

(** ** The rest of [main.py] *)

(** The key of [analyze_character_distribution] that counts a class. *)
Definition class_key (k : char_class) : string :=
  match k with
  | Lowercase => "lowercase"
  | Uppercase => "uppercase"
  | Digit => "digits"
  | Punctuation => "special"
  end.

(** [n] characters with consecutive code points, starting at [c]. *)
Definition ascending_run (c : N) (n : nat) : list N :=
  (λ i, (c + N.of_nat i)%N) <$> seq 0 n.

(** A string of ASCII characters only. *)
Definition is_ascii (s : list N) : Prop := Forall (λ c, (c < 128)%N) s.

(** The texts of the rules of [get_suggestions] that fire for a length,
    four class counts and four pattern counts, in the order of the rules. *)
Definition fired_rules (len lo up di sp s r k c : Z) : list string :=
  (if decide (len < 12)%Z then [Text.longer] else [])
  ++ (if decide (lo = 0%Z) then [Text.add_lowercase] else [])
  ++ (if decide (up = 0%Z) then [Text.add_uppercase] else [])
  ++ (if decide (di = 0%Z) then [Text.add_numbers] else [])
  ++ (if decide (sp = 0%Z) then [Text.add_special] else [])
  ++ (if decide (s > 0)%Z then [Text.avoid_sequential] else [])
  ++ (if decide (r > 0)%Z then [Text.avoid_repeated] else [])
  ++ (if decide (k > 0)%Z then [Text.avoid_keyboard] else [])
  ++ (if decide (c > 0)%Z then [Text.avoid_common] else []).

(** The nine rule texts, in the order of the rules. *)
Definition rule_texts : list string :=
  [ Text.longer; Text.add_lowercase; Text.add_uppercase; Text.add_numbers;
    Text.add_special; Text.avoid_sequential; Text.avoid_repeated;
    Text.avoid_keyboard; Text.avoid_common ].

(** [get_suggestions] applied to the dicts that the two analyzers return
    for the password:
    [get_suggestions(password, analyze_character_distribution(password),
    find_patterns(password))]. This is the three functions composed, not a
    run of [main], which evaluates [calculate_crack_time] before it. *)
Definition analyzed_suggestions `{UnicodeTables} (password : list N)
  : option (list string) :=
  let char_distribution := analyze_character_distribution password in
  patterns ← find_patterns password;
  get_suggestions password char_distribution patterns.

(** ** [get_rate_color], [get_rate_label] *)

Definition get_rate_color (score : Z) : string :=
  let colors : gmap Z string :=
    {[ 0%Z := "#ff0000"; 1%Z := "#ff4500"; 2%Z := "#ffa500";
       3%Z := "#9acd32"; 4%Z := "#008000" ]}%string in
  default "#ff0000"%string (colors !! score).

Definition get_rate_label (score : Z) : string :=
  let labels : gmap Z string :=
    {[ 0%Z := "Very Weak"; 1%Z := "Weak"; 2%Z := "Medium";
       3%Z := "Strong"; 4%Z := "Very Strong" ]}%string in
  default "Very Weak"%string (labels !! score).

(** ** The chart and the pattern summary of [main] *)

(** [labels] and [values] of the composition chart; a missing key of the
    distribution is a [KeyError]. *)
Definition chart_labels : list string :=
  [ "Lowercase"; "Uppercase"; "Digits"; "Special"; "Other" ]%string.

Definition chart_values (char_distribution : gmap string Z) : option (list Z) :=
  lo ← char_distribution !! "lowercase";
  up ← char_distribution !! "uppercase";
  di ← char_distribution !! "digits";
  sp ← char_distribution !! "special";
  ot ← char_distribution !! "other";
  Some [lo; up; di; sp; ot].

(** [[label for label, value in zip(labels, values) if value > 0]] *)
Definition non_zero_labels (labels : list string) (values : list Z) : list string :=
  fst <$> filter (λ lv, (lv.2 > 0)%Z) (zip labels values).

(** [[value for value in values if value > 0]] *)
Definition non_zero_values (values : list Z) : list Z :=
  filter (λ v, (v > 0)%Z) values.

(** [marker_colors] of the chart: always the five colours. *)
Definition marker_colors : list string :=
  [ "#4CAF50"; "#2196F3"; "#FFC107"; "#FF5722"; "#9C27B0" ]%string.

(** [s.replace(old, new)]: the occurrences of [old] are replaced from left
    to right without overlap; with an empty [old], [new] is put before
    every character and at the end. *)
Fixpoint replace_from (old new s : list N) (skip : nat) : list N :=
  match s with
  | [] => []
  | c :: s' =>
      match skip with
      | S skip' => replace_from old new s' skip'
      | 0 =>
          if Py.startswith s old
          then new ++ replace_from old new s' (length old - 1)
          else c :: replace_from old new s' 0
      end
  end.

Definition str_replace (s old new : list N) : list N :=
  match old with
  | [] => new ++ (c ← s; c :: new)
  | _ :: _ => replace_from old new s 0
  end.

(** The class rules of the style sheet of the page, each with its colour. *)
Definition style_rules : list (string * string) :=
  [ ("password-very-weak", "#ff0000"); ("password-weak", "#ff4500");
    ("password-medium", "#ffa500"); ("password-strong", "#9acd32");
    ("password-very-strong", "#008000") ]%string.

(** The class [main] writes around the label:
    [f"password-{label.lower().replace(' ', '-')}"]. *)
Definition label_class `{UnicodeTables} (label : string) : list N :=
  Py.codepoints "password-"
  ++ str_replace (lower (Py.codepoints label)) (Py.codepoints " ") (Py.codepoints "-").

(** * Properties *)

(** ** Character distribution: the counts add up *)

Section Distribution.

Implicit Types (password : list N) (c : N).

Lemma foldl_add_shift (a : Z) (xs : list Z) :
  foldl Z.add a xs = (a + foldl Z.add 0 xs)%Z.
Proof.
  revert a. induction xs as [|x xs IH]; intros a; simpl; [lia|].
  rewrite (IH (a + x)%Z), (IH (0 + x)%Z). lia.
Qed.

Lemma sum_cons (x : Z) (xs : list Z) : Py.sum (x :: xs) = (x + Py.sum xs)%Z.
Proof. unfold Py.sum. simpl. rewrite foldl_add_shift. lia. Qed.

Lemma count_if_nil (P : N → Prop) `{!∀ c, Decision (P c)} : count_if P [] = 0%Z.
Proof. reflexivity. Qed.

Lemma count_if_cons (P : N → Prop) `{!∀ c, Decision (P c)} c password :
  count_if P (c :: password) = (indicator (P c) + count_if P password)%Z.
Proof.
  unfold count_if, indicator. rewrite filter_cons.
  destruct (decide (P c)); [|lia].
  rewrite fmap_cons. apply sum_cons.
Qed.

(** The four recognised classes do not overlap. *)
Lemma classes_NoDup :
  NoDup (Py.ascii_letters ++ Py.digits ++ Py.punctuation).
Proof. apply (bool_decide_unpack _). vm_compute. exact I. Qed.

(** Every character falls in exactly one of the five categories. *)
Lemma one_category c :
  (indicator (c ∈ Py.ascii_lowercase) + indicator (c ∈ Py.ascii_uppercase)
   + indicator (c ∈ Py.digits) + indicator (c ∈ Py.punctuation)
   + indicator (c ∉ Py.ascii_letters ++ Py.digits ++ Py.punctuation) = 1)%Z.
Proof.
  pose proof classes_NoDup as Hnd. unfold Py.ascii_letters in *.
  rewrite <- (assoc_L (++)) in Hnd.
  apply NoDup_app in Hnd as (_ & Hlo & Hnd).
  apply NoDup_app in Hnd as (_ & Hup & Hnd).
  apply NoDup_app in Hnd as (_ & Hdi & _).
  specialize (Hlo c). specialize (Hup c). specialize (Hdi c).
  repeat rewrite not_elem_of_app in Hlo. rewrite not_elem_of_app in Hup.
  unfold indicator.
  destruct (decide (c ∉ _)) as [Hot|Hin].
  - rewrite !not_elem_of_app in Hot. repeat case_decide; try lia; tauto.
  - apply dec_stable in Hin. rewrite !elem_of_app in Hin.
    repeat case_decide; try lia; tauto.
Qed.

Lemma counts_add_up password :
  (count_if (λ c, c ∈ Py.ascii_lowercase) password
   + count_if (λ c, c ∈ Py.ascii_uppercase) password
   + count_if (λ c, c ∈ Py.digits) password
   + count_if (λ c, c ∈ Py.punctuation) password
   + count_if (λ c, c ∉ Py.ascii_letters ++ Py.digits ++ Py.punctuation) password
   = Py.len password)%Z.
Proof.
  induction password as [|c password IH]; [reflexivity|].
  rewrite !count_if_cons. pose proof (one_category c).
  unfold Py.len in *. simpl length. lia.
Qed.

Lemma dict_values_sum_insert (k : string) (v : Z) (d : gmap string Z) :
  d !! k = None → dict_values_sum (<[k := v]> d) = (v + dict_values_sum d)%Z.
Proof.
  intros Hk. unfold dict_values_sum.
  rewrite map_fold_insert_L; [done| |done]. intros; lia.
Qed.

Lemma dict_values_sum_empty : dict_values_sum ∅ = 0%Z.
Proof. unfold dict_values_sum. apply map_fold_empty. Qed.

(** The dict literal of the source, for arbitrary counts. *)
Lemma distribution_dict (lo up di sp ot : Z) :
  let d : gmap string Z :=
    {[ "lowercase" := lo; "uppercase" := up; "digits" := di;
       "special" := sp; "other" := ot ]} in
  dom d = {[ "lowercase"; "uppercase"; "digits"; "special"; "other" ]}
  ∧ dict_values_sum d = (lo + up + di + sp + ot)%Z
  ∧ d !! "lowercase" = Some lo ∧ d !! "uppercase" = Some up
  ∧ d !! "digits" = Some di ∧ d !! "special" = Some sp
  ∧ d !! "other" = Some ot.
Proof.
  cbv zeta. split; [|split].
  - rewrite !dom_insert_L, dom_singleton_L. set_solver.
  - rewrite !dict_values_sum_insert by (by simplify_map_eq).
    rewrite <- insert_empty, dict_values_sum_insert by done.
    rewrite dict_values_sum_empty. lia.
  - repeat split; by simplify_map_eq.
Qed.

(** C1. For every password, the five counts of the character distribution
    (lowercase, uppercase, digits, special, other) are the only entries
    of the returned dict and their sum is the length of the password. *)
Theorem distribution_sums_to_length password :
  let d := analyze_character_distribution password in
  dom d = {[ "lowercase"; "uppercase"; "digits"; "special"; "other" ]}
  ∧ dict_values_sum d = Py.len password
  ∧ ∃ lo up di sp ot : Z,
      d !! "lowercase" = Some lo ∧ d !! "uppercase" = Some up
      ∧ d !! "digits" = Some di ∧ d !! "special" = Some sp
      ∧ d !! "other" = Some ot
      ∧ (lo + up + di + sp + ot)%Z = Py.len password.
Proof.
  pose proof (counts_add_up password) as Hsum.
  cbv zeta. unfold analyze_character_distribution.
  destruct (distribution_dict
    (count_if (λ c, c ∈ Py.ascii_lowercase) password)
    (count_if (λ c, c ∈ Py.ascii_uppercase) password)
    (count_if (λ c, c ∈ Py.digits) password)
    (count_if (λ c, c ∈ Py.punctuation) password)
    (count_if (λ c, c ∉ Py.ascii_letters ++ Py.digits ++ Py.punctuation) password))
    as (Hdom & Hval & Hlookups).
  unfold count_if in *.
  split; [exact Hdom|]. split; [by rewrite Hval|].
  destruct Hlookups as (Hlo & Hup & Hdi & Hsp & Hot).
  do 5 eexists. repeat (split; [eassumption|]). exact Hsum.
Qed.

End Distribution.

(** ** Entropy: empty input, fallback alphabet, bounds *)

Section Entropy.

Implicit Types (password p q : list N).

Lemma punctuation_len : Py.len Py.punctuation = 32%Z.
Proof. reflexivity. Qed.

(** The possible alphabet sizes, by the classes present. *)
Lemma char_set_size_classes password :
  char_set_size password =
    let s := ((if decide (has_class Lowercase password) then 26 else 0)
              + (if decide (has_class Uppercase password) then 26 else 0)
              + (if decide (has_class Digit password) then 10 else 0)
              + (if decide (has_class Punctuation password) then 32 else 0))%Z in
    if decide (s = 0%Z) then 10%Z else s.
Proof.
  unfold char_set_size, has_class_dec, has_class. cbn [class_chars].
  rewrite punctuation_len. cbv zeta.
  repeat destruct (decide (Exists _ password)); repeat case_decide; lia.
Qed.

Lemma char_set_size_ext p q :
  (∀ k, has_class k p ↔ has_class k q) → char_set_size p = char_set_size q.
Proof.
  intros Hk. rewrite !char_set_size_classes. cbv zeta.
  by rewrite (decide_ext _ _ _ _ (Hk Lowercase)), (decide_ext _ _ _ _ (Hk Uppercase)),
    (decide_ext _ _ _ _ (Hk Digit)), (decide_ext _ _ _ _ (Hk Punctuation)).
Qed.

Lemma char_set_size_ge_10 password : (10 ≤ char_set_size password)%Z.
Proof.
  rewrite char_set_size_classes. cbv zeta. repeat case_decide; lia.
Qed.

Lemma ln_2_pos : (0 < ln 2)%R.
Proof. rewrite <- ln_1. apply ln_increasing; lra. Qed.

Lemma log2_le (x y : R) : (0 < x)%R → (x <= y)%R → (log2 x <= log2 y)%R.
Proof.
  intros Hx Hxy. unfold log2, Rlog.
  apply Rmult_le_compat_r.
  - left. apply Rinv_0_lt_compat, ln_2_pos.
  - destruct Hxy as [Hlt| ->]; [left; by apply ln_increasing|right; reflexivity].
Qed.

Lemma log2_10_pos : (0 < log2 10)%R.
Proof.
  unfold log2, Rlog. apply Rdiv_lt_0_compat; [|apply ln_2_pos].
  rewrite <- ln_1. apply ln_increasing; lra.
Qed.

Lemma log2_size_ge password :
  (log2 10 <= log2 (IZR (char_set_size password)))%R.
Proof.
  apply log2_le; [lra|]. apply IZR_le, char_set_size_ge_10.
Qed.

Lemma entropy_nonneg password : (0 <= analyze_entropy password)%R.
Proof.
  destruct password as [|c password]; [simpl; lra|].
  unfold analyze_entropy. apply Rmult_le_pos.
  - pose proof (log2_size_ge (c :: password)). pose proof log2_10_pos. lra.
  - apply IZR_le. unfold Py.len. lia.
Qed.

(** C4. The entropy of the empty password is exactly 0. *)
Theorem entropy_empty : analyze_entropy [] = 0%R.
Proof. reflexivity. Qed.

(** C5. For a non-empty password none of whose characters is an ASCII
    lowercase letter, an ASCII uppercase letter, a digit or a punctuation
    character, the alphabet size is the fallback 10 and the entropy is
    log2(10) times the length. *)
Theorem entropy_fallback password :
  password ≠ [] →
  (∀ c, c ∈ password →
     (c ∉ Py.ascii_lowercase) ∧ (c ∉ Py.ascii_uppercase)
     ∧ (c ∉ Py.digits) ∧ (c ∉ Py.punctuation)) →
  char_set_size password = 10%Z
  ∧ analyze_entropy password = (log2 10 * IZR (Py.len password))%R.
Proof.
  intros Hne Hnone.
  assert (char_set_size password = 10%Z) as Hsize.
  { rewrite char_set_size_classes. cbv zeta.
    assert (unrecognized password) as Hun.
    { intros k Hk. apply Exists_exists in Hk as (c & Hc & Hin).
      destruct (Hnone c Hc) as (? & ? & ? & ?). by destruct k. }
    repeat (destruct (decide (has_class _ password)) as [Hk|_];
            [by apply Hun in Hk|]).
    reflexivity. }
  split; [exact Hsize|].
  destruct password as [|c password]; [done|].
  unfold analyze_entropy. by rewrite Hsize.
Qed.

(** C6. When two passwords show the same set of recognised classes, the
    longer one has at least the entropy of the shorter one. *)
Theorem entropy_monotone_in_length p q :
  (∀ k, has_class k p ↔ has_class k q) →
  length p ≤ length q →
  (analyze_entropy p <= analyze_entropy q)%R.
Proof.
  intros Hk Hlen.
  destruct p as [|a p]; [apply entropy_nonneg|].
  destruct q as [|b q]; [simpl in Hlen; lia|].
  unfold analyze_entropy. rewrite (char_set_size_ext _ _ Hk).
  apply Rmult_le_compat_l.
  - pose proof (log2_size_ge (b :: q)). pose proof log2_10_pos. lra.
  - apply IZR_le. unfold Py.len. lia.
Qed.

(** C10. For a non-empty password the alphabet size is at least 10, the
    entropy is at least log2(10) times the length, and it is strictly
    positive. *)
Theorem entropy_lower_bound password :
  password ≠ [] →
  (10 ≤ char_set_size password)%Z
  ∧ (log2 10 * IZR (Py.len password) <= analyze_entropy password)%R
  ∧ (0 < analyze_entropy password)%R.
Proof.
  intros Hne. split; [apply char_set_size_ge_10|].
  destruct password as [|c password]; [done|].
  assert (1 <= IZR (Py.len (c :: password)))%R as Hlen.
  { apply IZR_le. unfold Py.len. simpl length. lia. }
  pose proof (log2_size_ge (c :: password)) as Hlog.
  pose proof log2_10_pos as Hpos.
  assert (log2 10 * IZR (Py.len (c :: password))
          <= analyze_entropy (c :: password))%R as Hle.
  { unfold analyze_entropy. apply Rmult_le_compat_r; [lra|exact Hlog]. }
  split; [exact Hle|].
  eapply Rlt_le_trans; [|exact Hle].
  apply Rmult_lt_0_compat; lra.
Qed.

End Entropy.

(** ** Crack time: unit selection *)

Section CrackTime.

Context `{PyFloat}.
Implicit Types (entropy guesses seconds : float).

Lemma lt_int_false seconds (n : Z) :
  lt_int seconds n = false ↔ (IZR n <= value seconds)%R.
Proof.
  rewrite <- not_true_iff_false, lt_int_value. split.
  - apply Rnot_lt_le.
  - intros Hle Hlt. lra.
Qed.

(** The unit chosen for the seconds computed from [guesses]. *)
Lemma crack_time_by_seconds entropy guesses :
  pow2 entropy = Some guesses →
  let seconds := div_int guesses 10000000000 in
  ((value seconds < 60)%R →
   calculate_crack_time entropy = Some (seconds, "seconds"%string))
  ∧ ((60 <= value seconds < 3600)%R →
     calculate_crack_time entropy = Some (div_int seconds 60, "minutes"%string))
  ∧ ((3600 <= value seconds < 86400)%R →
     calculate_crack_time entropy = Some (div_int seconds 3600, "hours"%string))
  ∧ ((86400 <= value seconds < 31536000)%R →
     calculate_crack_time entropy = Some (div_int seconds 86400, "days"%string))
  ∧ ((31536000 <= value seconds)%R →
     calculate_crack_time entropy
     = Some (div_int seconds 31536000, "years"%string)).
Proof.
  intros Hpow. cbv zeta. unfold calculate_crack_time. rewrite Hpow. cbn [mbind option_bind].
  set (seconds := div_int guesses 10000000000).
  repeat split; intros Hs.
  - by rewrite (proj2 (lt_int_value seconds 60)) by lra.
  - rewrite (proj2 (lt_int_false seconds 60)) by lra.
    by rewrite (proj2 (lt_int_value seconds 3600)) by lra.
  - rewrite (proj2 (lt_int_false seconds 60)) by lra.
    rewrite (proj2 (lt_int_false seconds 3600)) by lra.
    by rewrite (proj2 (lt_int_value seconds 86400)) by lra.
  - rewrite (proj2 (lt_int_false seconds 60)) by lra.
    rewrite (proj2 (lt_int_false seconds 3600)) by lra.
    rewrite (proj2 (lt_int_false seconds 86400)) by lra.
    by rewrite (proj2 (lt_int_value seconds 31536000)) by lra.
  - rewrite (proj2 (lt_int_false seconds 60)) by lra.
    rewrite (proj2 (lt_int_false seconds 3600)) by lra.
    rewrite (proj2 (lt_int_false seconds 86400)) by lra.
    rewrite (proj2 (lt_int_false seconds 31536000)) by lra.
    by destruct (lt_int seconds (31536000 * 100)).
Qed.

(** From entropy 1024 on nothing is returned: [2 ** entropy] raises. *)
Lemma crack_time_overflow entropy :
  (1024 <= value entropy)%R → calculate_crack_time entropy = None.
Proof.
  intros Hbig. unfold calculate_crack_time. by rewrite pow2_overflow.
Qed.



End CrackTime.

Section CrackTimeExamples.




End CrackTimeExamples.

(** ** Pattern detection *)

Lemma count_hits_nil {A} (f : A → bool) : count_hits f [] = 0%Z.
Proof. reflexivity. Qed.

Lemma count_hits_cons {A} (f : A → bool) (x : A) (xs : list A) :
  count_hits f (x :: xs) = ((if f x then 1 else 0) + count_hits f xs)%Z.
Proof.
  unfold count_hits, Py.len. rewrite filter_cons.
  destruct (f x); simpl; lia.
Qed.

Lemma count_hits_nonneg {A} (f : A → bool) (xs : list A) : (0 ≤ count_hits f xs)%Z.
Proof. unfold count_hits, Py.len. lia. Qed.

Lemma count_hits_fmap {A B} (g : A → B) (f : B → bool) (xs : list A) :
  count_hits f (g <$> xs) = count_hits (f ∘ g) xs.
Proof.
  induction xs as [|x xs IH]; [reflexivity|].
  rewrite fmap_cons, !count_hits_cons, IH. reflexivity.
Qed.

Section Loops.

Context {A : Type}.
Implicit Types (m : gmap string Z) (key : string).

Lemma bind_Some {B C : Type} (x : B) (f : B → option C) : Some x ≫= f = f x.
Proof. reflexivity. Qed.

Lemma for_each_app {S} (xs ys : list A) (body : A → S → option S) (s : S) :
  for_each (xs ++ ys) body s = s' ← for_each xs body s; for_each ys body s'.
Proof.
  revert s. induction xs as [|x xs IH]; intros s; [reflexivity|].
  simpl. destruct (body x s) as [s'|]; [apply IH|reflexivity].
Qed.

(** A loop whose body adds one to [key] on a hit adds the number of hits. *)
Lemma for_each_counting (xs : list A) (hit : A → option bool) (f : A → bool)
    key m (v : Z) :
  m !! key = Some v →
  Forall (λ x, hit x = Some (f x)) xs →
  for_each xs (λ x m, h ← hit x; if h : bool then increment key m else Some m) m
  = Some (<[key := (v + count_hits f xs)%Z]> m).
Proof.
  intros Hv Hhit. revert m v Hv.
  induction Hhit as [|x xs Hx _ IH]; intros m v Hv.
  - simpl. rewrite count_hits_nil, Z.add_0_r. by rewrite insert_id.
  - cbn [for_each]. rewrite Hx, bind_Some, count_hits_cons.
    destruct (f x).
    + unfold increment. rewrite Hv, !bind_Some.
      rewrite (IH _ (v + 1)%Z) by apply lookup_insert_eq.
      rewrite insert_insert_eq. do 2 f_equal. lia.
    + rewrite bind_Some, (IH _ v Hv). do 2 f_equal.
Qed.

Lemma for_each_counting_pure (xs : list A) (f : A → bool) key m (v : Z) :
  m !! key = Some v →
  for_each xs (λ x m, if f x then increment key m else Some m) m
  = Some (<[key := (v + count_hits f xs)%Z]> m).
Proof.
  intros Hv.
  apply (for_each_counting xs (λ x, Some (f x)) f key m v Hv).
  by apply Forall_forall.
Qed.

End Loops.

Section Patterns.

Context `{UnicodeTables}.
Implicit Types (password : list N) (m : gmap string Z) (key : string).

Lemma startswith_prefix (hay needle : list N) :
  Py.startswith hay needle = true ↔ needle `prefix_of` hay.
Proof.
  revert hay. induction needle as [|a needle IH]; intros hay; simpl.
  - split; [intros _; apply prefix_nil|done].
  - destruct hay as [|b hay].
    + split; [done|]. intros Hp. by apply prefix_nil_not in Hp.
    + rewrite andb_true_iff, bool_decide_eq_true, IH. split.
      * intros [-> Hp]. by apply prefix_cons.
      * intros Hp. split; [by eapply prefix_cons_inv_1|by eapply prefix_cons_inv_2].
Qed.

(** [in] on strings tests for a contiguous occurrence of the left operand
    in the right one. *)
Lemma contains_occurs (hay needle : list N) :
  Py.contains hay needle = true ↔ occurs_in needle hay.
Proof.
  unfold occurs_in. induction hay as [|b hay IH]; simpl.
  - rewrite orb_false_r, startswith_prefix. split.
    + intros [k ->]. by exists [], k.
    + intros (before & after & Heq). symmetry in Heq.
      apply app_eq_nil in Heq as [-> Heq]. apply app_eq_nil in Heq as [-> ->].
      done.
  - rewrite orb_true_iff, startswith_prefix, IH. split.
    + intros [[k ->]|(before & after & ->)].
      * by exists [], k.
      * by exists (b :: before), after.
    + intros (before & after & Heq). destruct before as [|b' before].
      * left. by exists after.
      * right. injection Heq as -> ->. by exists before, after.
Qed.

#[global] Instance occurs_in_dec (needle hay : list N) :
  Decision (occurs_in needle hay).
Proof.
  refine (cast_if (decide (Py.contains hay needle = true)));
    by rewrite <- contains_occurs.
Defined.

Lemma count_hits_app {A} (f : A → bool) (xs ys : list A) :
  count_hits f (xs ++ ys) = (count_hits f xs + count_hits f ys)%Z.
Proof.
  unfold count_hits, Py.len. rewrite filter_app, length_app. lia.
Qed.

(** A loop over rows whose inner loop counts hits adds up all the hits. *)
Lemma for_each_rows_counting {A B C} (rows : list A) (g : A → list B)
    (h : A → B → C) (f : C → bool) key m (v : Z) :
  m !! key = Some v →
  for_each rows (λ row m,
    for_each (g row) (λ i m, if f (h row i) then increment key m else Some m) m) m
  = Some (<[key := (v + count_hits f (row ← rows; h row <$> g row))%Z]> m).
Proof.
  revert m v. induction rows as [|row rows IH]; intros m v Hv.
  - simpl. rewrite count_hits_nil, Z.add_0_r. by rewrite insert_id.
  - cbn [for_each].
    rewrite (for_each_counting_pure (g row) (λ i, f (h row i)) key m v Hv).
    rewrite bind_Some, (IH _ (v + count_hits (λ i, f (h row i)) (g row))%Z)
      by apply lookup_insert_eq.
    rewrite insert_insert_eq, bind_cons, count_hits_app, count_hits_fmap.
    do 2 f_equal. unfold compose. lia.
Qed.

Lemma range_in_bounds password (i : nat) :
  i ∈ Py.range (Py.len password - 2) → i + 2 < length password.
Proof.
  unfold Py.range, Py.len. rewrite elem_of_seq. lia.
Qed.

(** Inside the loop no index is out of range. *)
Lemma sequential_at_total password (i : nat) :
  i + 2 < length password → is_Some (sequential_at password i).
Proof.
  intros Hi. unfold sequential_at, Py.index.
  destruct (lookup_lt_is_Some_2 password i) as [a ->]; [lia|].
  destruct (lookup_lt_is_Some_2 password (i + 1)) as [b ->]; [lia|].
  destruct (lookup_lt_is_Some_2 password (i + 2)) as [c ->]; [lia|].
  simpl. by case_decide.
Qed.

Lemma repeated_at_total password (i : nat) :
  i + 2 < length password → is_Some (repeated_at password i).
Proof.
  intros Hi. unfold repeated_at, Py.index.
  destruct (lookup_lt_is_Some_2 password i) as [a ->]; [lia|].
  destruct (lookup_lt_is_Some_2 password (i + 1)) as [b ->]; [lia|].
  destruct (lookup_lt_is_Some_2 password (i + 2)) as [c ->]; [lia|].
  simpl. by case_decide.
Qed.

Lemma hits_in_range password (hit : list N → nat → option bool) :
  (∀ i, i + 2 < length password → is_Some (hit password i)) →
  Forall (λ i, hit password i = Some (default false (hit password i)))
         (Py.range (Py.len password - 2)).
Proof.
  intros Htotal. apply Forall_forall. intros i Hi.
  destruct (Htotal i (range_in_bounds _ _ Hi)) as [b ->]. reflexivity.
Qed.

Lemma patterns_dict (a b c d : Z) :
  <["common_words" := (0 + d)%Z]>
    (<["keyboard_patterns" := (0 + c)%Z]>
      (<["repeated_chars" := (0 + b)%Z]>
        (<["sequential_chars" := (0 + a)%Z]>
          ({[ "sequential_chars" := 0%Z; "repeated_chars" := 0%Z;
              "keyboard_patterns" := 0%Z; "common_words" := 0%Z ]}
           : gmap string Z))))
  = {[ "sequential_chars" := a; "repeated_chars" := b;
       "keyboard_patterns" := c; "common_words" := d ]}.
Proof.
  rewrite !Z.add_0_l. apply map_eq. intros k.
  destruct (decide (k = "common_words")) as [->|]; [by simplify_map_eq|].
  destruct (decide (k = "keyboard_patterns")) as [->|]; [by simplify_map_eq|].
  destruct (decide (k = "repeated_chars")) as [->|]; [by simplify_map_eq|].
  destruct (decide (k = "sequential_chars")) as [->|]; by simplify_map_eq.
Qed.

(** [find_patterns] never fails, and its four counters are the numbers of
    hits of the four scans. *)
Lemma find_patterns_counts password :
  find_patterns password =
    Some {[ "sequential_chars" := sequential_hits password;
            "repeated_chars" := repeated_hits password;
            "keyboard_patterns" := Py.len (keyboard_hits password);
            "common_words" := Py.len (common_word_hits password) ]}.
Proof.
  unfold find_patterns. cbv zeta.
  rewrite (for_each_counting (Py.range _) (sequential_at password)
             (λ i, default false (sequential_at password i))
             "sequential_chars" _ 0%Z);
    [|by simplify_map_eq|apply hits_in_range, sequential_at_total].
  rewrite bind_Some.
  rewrite (for_each_counting (Py.range _) (repeated_at password)
             (λ i, default false (repeated_at password i))
             "repeated_chars" _ 0%Z);
    [|by simplify_map_eq|apply hits_in_range, repeated_at_total].
  rewrite bind_Some.
  rewrite (for_each_rows_counting keyboard_rows
             (λ row, Py.range (Py.len row - 2))
             (λ row i, Py.slice row i (i + 3))
             (λ s, Py.contains (lower password) (lower s))
             "keyboard_patterns" _ 0%Z) by (by simplify_map_eq).
  rewrite bind_Some.
  rewrite (for_each_counting_pure common_words
             (λ w, Py.contains (lower password) w)
             "common_words" _ 0%Z) by (by simplify_map_eq).
  rewrite bind_Some. apply (f_equal Some), patterns_dict.
Qed.

Lemma pattern_count_lookup key password :
  pattern_count key password =
    ({[ "sequential_chars" := sequential_hits password;
        "repeated_chars" := repeated_hits password;
        "keyboard_patterns" := Py.len (keyboard_hits password);
        "common_words" := Py.len (common_word_hits password) ]}
     : gmap string Z) !! key.
Proof. unfold pattern_count. by rewrite find_patterns_counts. Qed.

(** C3. The keyboard counter is the number of length-3 slices of the three
    rows "qwertyuiop", "asdfghjkl" and "zxcvbnm" that occur in the lowered
    password: each of the twenty slices adds one when it is a contiguous
    part of the lowered password and nothing otherwise. The slice is looked
    for in the password, not the password in the row: "qw" lies in a row
    and counts nothing, "xqwex" lies in no row and counts one. *)
Theorem keyboard_patterns_count :
  keyboard_rows =
    Py.codepoints <$> ["qwertyuiop"; "asdfghjkl"; "zxcvbnm"]%string
  ∧ keyboard_slices =
      Py.codepoints <$>
        ["qwe"; "wer"; "ert"; "rty"; "tyu"; "yui"; "uio"; "iop";
         "asd"; "sdf"; "dfg"; "fgh"; "ghj"; "hjk"; "jkl";
         "zxc"; "xcv"; "cvb"; "vbn"; "bnm"]%string
  ∧ (∀ password,
       pattern_count "keyboard_patterns" password
       = Some (count_hits (λ s, Py.contains (lower password) (lower s))
                          keyboard_slices))
  ∧ (∀ password s rest,
       count_hits (λ s, Py.contains (lower password) (lower s)) (s :: rest)
       = ((if decide (occurs_in (lower s) (lower password)) then 1 else 0)
          + count_hits (λ s, Py.contains (lower password) (lower s)) rest)%Z)
  ∧ (∀ s, s ∈ keyboard_slices → lower s = s)
  ∧ pattern_count "keyboard_patterns" (Py.codepoints "qw") = Some 0%Z
  ∧ pattern_count "keyboard_patterns" (Py.codepoints "xqwex") = Some 1%Z
  ∧ pattern_count "keyboard_patterns" (Py.codepoints "QWERTYuiop") = Some 8%Z.
Proof.
  split; [reflexivity|]. split; [reflexivity|]. split; [|split; [|split]].
  - intros password. rewrite pattern_count_lookup. by simplify_map_eq.
  - intros password s rest. rewrite count_hits_cons.
    destruct (Py.contains _ _) eqn:Hc.
    + rewrite decide_True; [done|]. by apply contains_occurs.
    + rewrite decide_False; [done|]. rewrite <- contains_occurs. congruence.
  - apply Forall_forall. apply (bool_decide_unpack _). vm_compute. exact I.
  - repeat split; vm_compute; reflexivity.
Qed.

(** C7. "aaa" has a repeated run, "abc" a sequential run, "qwe" a keyboard
    slice and "mypassword1" a common word: each of these counters is at
    least 1 on its input. *)
Theorem pattern_sanity_bounds :
  ∃ repeated sequential keyboard common : Z,
    pattern_count "repeated_chars" (Py.codepoints "aaa") = Some repeated
    ∧ pattern_count "sequential_chars" (Py.codepoints "abc") = Some sequential
    ∧ pattern_count "keyboard_patterns" (Py.codepoints "qwe") = Some keyboard
    ∧ pattern_count "common_words" (Py.codepoints "mypassword1") = Some common
    ∧ (1 ≤ repeated)%Z ∧ (1 ≤ sequential)%Z ∧ (1 ≤ keyboard)%Z ∧ (1 ≤ common)%Z.
Proof.
  exists 1%Z, 1%Z, 1%Z, 1%Z.
  repeat split; try lia; vm_compute; reflexivity.
Qed.

End Patterns.

(** ** Suggestions *)

Section Suggestions.

Implicit Types (password : list N) (char_distribution patterns : gmap string Z).

(** C8. On the empty password the suggestion generator returns the single
    prompt, whatever the two dicts hold: no rule is evaluated, so not even
    a dict without the expected keys raises an error. *)
Theorem suggestions_empty_password char_distribution patterns :
  get_suggestions [] char_distribution patterns
  = Some ["Enter a password to get suggestions"%string].
Proof. reflexivity. Qed.

(** On any other password the rules are evaluated: a dict without the
    expected key is an error. *)
Lemma suggestions_missing_key password patterns :
  password ≠ [] → get_suggestions password ∅ patterns = None.
Proof.
  intros Hne. unfold get_suggestions.
  rewrite decide_False by done. reflexivity.
Qed.

(** C9. A password of at least 12 characters whose distribution counts of
    lowercase, uppercase, digits and special are all positive and whose
    four pattern counters are all zero gets the single "looks good"
    suggestion. *)
Theorem suggestions_looks_good password char_distribution patterns
    (lo up di sp : Z) :
  (12 ≤ Py.len password)%Z →
  char_distribution !! "lowercase" = Some lo → (0 < lo)%Z →
  char_distribution !! "uppercase" = Some up → (0 < up)%Z →
  char_distribution !! "digits" = Some di → (0 < di)%Z →
  char_distribution !! "special" = Some sp → (0 < sp)%Z →
  patterns !! "sequential_chars" = Some 0%Z →
  patterns !! "repeated_chars" = Some 0%Z →
  patterns !! "keyboard_patterns" = Some 0%Z →
  patterns !! "common_words" = Some 0%Z →
  get_suggestions password char_distribution patterns
  = Some ["Your password looks good! Remember to use different passwords for different accounts."%string].
Proof.
  intros Hlen Hlo ? Hup ? Hdi ? Hsp ? Hseq Hrep Hkey Hcom.
  unfold get_suggestions.
  destruct (decide (password = [])) as [->|_].
  { unfold Py.len in Hlen. simpl in Hlen. lia. }
  destruct (decide (Py.len password < 12)%Z); [lia|].
  rewrite Hlo. cbn [mbind option_bind].
  destruct (decide (lo = 0%Z)); [lia|].
  rewrite Hup. cbn [mbind option_bind].
  destruct (decide (up = 0%Z)); [lia|].
  rewrite Hdi. cbn [mbind option_bind].
  destruct (decide (di = 0%Z)); [lia|].
  rewrite Hsp. cbn [mbind option_bind].
  destruct (decide (sp = 0%Z)); [lia|].
  rewrite Hseq, Hrep, Hkey, Hcom. reflexivity.
Qed.

End Suggestions.

(** ** The theorems at concrete inputs *)

Section Examples.

#[local] Existing Instance no_tables.

Ltac compute_decide := apply (bool_decide_unpack _); vm_compute; exact I.

(** "qwe" is a keyboard slice and lowering leaves it as it is. *)
Lemma keyboard_patterns_count_witness :
  Py.codepoints "qwe" ∈ keyboard_slices
  ∧ lower (Py.codepoints "qwe") = Py.codepoints "qwe".
Proof.
  assert (Py.codepoints "qwe" ∈ keyboard_slices) as Hin by compute_decide.
  split; [exact Hin|].
  destruct (keyboard_patterns_count (H := no_tables))
    as (_ & _ & _ & _ & Hlower & _).
  exact (Hlower _ Hin).
Defined.

(** Two characters outside the four classes: U+00E9 and U+00FC. *)
Lemma entropy_fallback_witness :
  char_set_size [233%N; 252%N] = 10%Z
  ∧ analyze_entropy [233%N; 252%N] = (log2 10 * IZR (Py.len [233%N; 252%N]))%R.
Proof.
  apply entropy_fallback; [done|].
  intros c Hc. apply elem_of_cons in Hc as [->|Hc];
    [|apply list_elem_of_singleton in Hc as ->];
    repeat split; compute_decide.
Defined.

(** "ab" and "abc" both show lowercase letters only. *)
Lemma entropy_monotone_in_length_witness :
  (∀ k, has_class k (Py.codepoints "ab") ↔ has_class k (Py.codepoints "abc"))
  ∧ (analyze_entropy (Py.codepoints "ab") <= analyze_entropy (Py.codepoints "abc"))%R.
Proof.
  assert (∀ k, has_class k (Py.codepoints "ab") ↔ has_class k (Py.codepoints "abc"))
    as Hk.
  { intros k. destruct k.
    - split; intros _; compute_decide.
    - split; intros Hk; exfalso; revert Hk; compute_decide.
    - split; intros Hk; exfalso; revert Hk; compute_decide.
    - split; intros Hk; exfalso; revert Hk; compute_decide. }
  split; [exact Hk|].
  apply entropy_monotone_in_length; [exact Hk|]. simpl. lia.
Defined.

Lemma entropy_lower_bound_witness :
  (10 ≤ char_set_size (Py.codepoints "a"))%Z
  ∧ (log2 10 * IZR (Py.len (Py.codepoints "a"))
     <= analyze_entropy (Py.codepoints "a"))%R
  ∧ (0 < analyze_entropy (Py.codepoints "a"))%R.
Proof. apply entropy_lower_bound. done. Defined.

(** A 16-character password with all four classes and no pattern, analysed
    and then passed to the suggestion generator. *)
Lemma suggestions_looks_good_witness :
  let password := Py.codepoints "Xk7#mP2$vL9@qR4!" in
  Py.len password = 16%Z
  ∧ (patterns ← find_patterns password;
     get_suggestions password (analyze_character_distribution password) patterns)
    = Some [Text.looks_good].
Proof.
  cbv zeta. split; [reflexivity|].
  rewrite find_patterns_counts, bind_Some.
  apply (suggestions_looks_good _ _ _ 4 4 4 4); by vm_compute.
Defined.

End Examples.

(** ** Distribution and entropy: composition, order and bounds *)

Section DistributionMore.

Implicit Types (password p q : list N) (c : N) (k : char_class).

Lemma distribution_unfold password :
  analyze_character_distribution password =
    {[ "lowercase" := count_if (λ c, c ∈ Py.ascii_lowercase) password;
       "uppercase" := count_if (λ c, c ∈ Py.ascii_uppercase) password;
       "digits" := count_if (λ c, c ∈ Py.digits) password;
       "special" := count_if (λ c, c ∈ Py.punctuation) password;
       "other" := count_if (λ c, c ∉ Py.ascii_letters ++ Py.digits ++ Py.punctuation)
                    password ]}.
Proof. reflexivity. Qed.

(** Outside its five keys the dict literal has nothing. *)
Lemma distribution_dict_other (lo up di sp ot : Z) (key : string) :
  key ∉ ["lowercase"; "uppercase"; "digits"; "special"; "other"]%string →
  ({[ "lowercase" := lo; "uppercase" := up; "digits" := di;
      "special" := sp; "other" := ot ]} : gmap string Z) !! key = None.
Proof.
  intros Hkey. rewrite !not_elem_of_cons in Hkey.
  destruct Hkey as (? & ? & ? & ? & ? & _).
  by rewrite !lookup_insert_ne, lookup_singleton_ne.
Qed.

Lemma count_if_app (P : N → Prop) `{!∀ c, Decision (P c)} p q :
  count_if P (p ++ q) = (count_if P p + count_if P q)%Z.
Proof.
  induction p as [|c p IH]; [simpl; rewrite count_if_nil; lia|].
  rewrite <- app_comm_cons, !count_if_cons, IH. lia.
Qed.

Lemma count_if_nonneg (P : N → Prop) `{!∀ c, Decision (P c)} p :
  (0 ≤ count_if P p)%Z.
Proof.
  induction p as [|c p IH]; [by rewrite count_if_nil|].
  rewrite count_if_cons. unfold indicator. case_decide; lia.
Qed.

Lemma count_if_pos (P : N → Prop) `{!∀ c, Decision (P c)} p :
  (0 < count_if P p)%Z ↔ Exists P p.
Proof.
  induction p as [|c p IH].
  - rewrite count_if_nil, Exists_nil. lia.
  - rewrite count_if_cons, Exists_cons. pose proof (count_if_nonneg P p).
    unfold indicator. case_decide; [|rewrite <- IH]; intuition lia.
Qed.

Lemma count_if_perm (P : N → Prop) `{!∀ c, Decision (P c)} p q :
  p ≡ₚ q → count_if P p = count_if P q.
Proof.
  induction 1 as [|c p q _ IH|c1 c2 p|p q r _ IH1 _ IH2].
  - reflexivity.
  - by rewrite !count_if_cons, IH.
  - rewrite !count_if_cons. lia.
  - by rewrite IH1.
Qed.

Lemma has_class_perm k p q : p ≡ₚ q → has_class k p ↔ has_class k q.
Proof. intros Hpq. unfold has_class. by rewrite Hpq. Qed.

Lemma has_class_app k p q : has_class k (p ++ q) ↔ has_class k p ∨ has_class k q.
Proof. unfold has_class. apply Exists_app. Qed.

(** The count stored under the key of a class. *)
Lemma distribution_class_lookup k password :
  analyze_character_distribution password !! class_key k
  = Some (count_if (λ c, c ∈ class_chars k) password).
Proof.
  rewrite distribution_unfold.
  destruct (distribution_dict
    (count_if (λ c, c ∈ Py.ascii_lowercase) password)
    (count_if (λ c, c ∈ Py.ascii_uppercase) password)
    (count_if (λ c, c ∈ Py.digits) password)
    (count_if (λ c, c ∈ Py.punctuation) password)
    (count_if (λ c, c ∉ Py.ascii_letters ++ Py.digits ++ Py.punctuation) password))
    as (_ & _ & Hlo & Hup & Hdi & Hsp & _).
  destruct k; assumption.
Qed.

Lemma dict5_union_with (a1 a2 a3 a4 a5 b1 b2 b3 b4 b5 : Z) :
  union_with (λ a b, Some (a + b)%Z)
    ({[ "lowercase" := a1; "uppercase" := a2; "digits" := a3;
        "special" := a4; "other" := a5 ]} : gmap string Z)
    {[ "lowercase" := b1; "uppercase" := b2; "digits" := b3;
       "special" := b4; "other" := b5 ]}
  = {[ "lowercase" := (a1 + b1)%Z; "uppercase" := (a2 + b2)%Z;
       "digits" := (a3 + b3)%Z; "special" := (a4 + b4)%Z;
       "other" := (a5 + b5)%Z ]}.
Proof.
  apply map_eq. intros key. rewrite lookup_union_with.
  destruct (decide (key = "lowercase")) as [->|]; [by simplify_map_eq|].
  destruct (decide (key = "uppercase")) as [->|]; [by simplify_map_eq|].
  destruct (decide (key = "digits")) as [->|]; [by simplify_map_eq|].
  destruct (decide (key = "special")) as [->|]; [by simplify_map_eq|].
  destruct (decide (key = "other")) as [->|]; by simplify_map_eq.
Qed.

(** X1. The distribution of a concatenation is the key-by-key sum of the
    distributions of its two parts. *)
Theorem distribution_of_concatenation p q :
  analyze_character_distribution (p ++ q)
  = union_with (λ a b, Some (a + b)%Z)
      (analyze_character_distribution p) (analyze_character_distribution q).
Proof.
  rewrite !distribution_unfold, !count_if_app. symmetry. apply dict5_union_with.
Qed.

(** X2. The distribution and the entropy do not depend on the order of the
    characters: two passwords that are rearrangements of one another get
    the same distribution and the same entropy. *)
Theorem analysis_ignores_order p q :
  p ≡ₚ q →
  analyze_character_distribution p = analyze_character_distribution q
  ∧ analyze_entropy p = analyze_entropy q.
Proof.
  intros Hpq. split.
  - rewrite !distribution_unfold.
    by rewrite !(count_if_perm _ p q Hpq).
  - assert (char_set_size p = char_set_size q) as Hsize.
    { apply char_set_size_ext. intros k. by apply has_class_perm. }
    assert (length p = length q) as Hlen by (by rewrite Hpq).
    destruct p as [|a p], q as [|b q]; try done.
    unfold analyze_entropy, Py.len. by rewrite Hsize, Hlen.
Qed.

(** X3. Under the key of each class the distribution holds a non-negative
    count, which is positive exactly when the entropy estimator sees the
    class in the password. *)
Theorem class_count_positive_iff_present k password :
  ∃ v : Z,
    analyze_character_distribution password !! class_key k = Some v
    ∧ (0 ≤ v)%Z
    ∧ ((0 < v)%Z ↔ has_class k password)
    ∧ (v = 0%Z ↔ ¬ has_class k password).
Proof.
  eexists. split; [apply distribution_class_lookup|].
  pose proof (count_if_nonneg (λ c, c ∈ class_chars k) password) as Hge.
  pose proof (count_if_pos (λ c, c ∈ class_chars k) password) as Hpos.
  unfold has_class. split; [exact Hge|]. split; [exact Hpos|].
  rewrite <- Hpos. lia.
Qed.

End DistributionMore.

Section EntropyMore.

Implicit Types (password p q : list N) (k : char_class).

(** The contribution of one class to the alphabet size. *)
Lemma class_weight_mono (P Q : Prop) `{!Decision P, !Decision Q} (w : Z) :
  (0 ≤ w)%Z → (P → Q) →
  ((if decide P then w else 0) ≤ (if decide Q then w else 0))%Z.
Proof. intros Hw HPQ. repeat case_decide; try lia. tauto. Qed.

Lemma class_weight_cases (P : Prop) `{!Decision P} (w : Z) :
  (if decide P then w else 0%Z) = 0%Z ∧ ¬ P ∨ (if decide P then w else 0%Z) = w ∧ P.
Proof. case_decide; tauto. Qed.

(** More classes never give a smaller alphabet. *)
Lemma char_set_size_mono p q :
  (∀ k, has_class k p → has_class k q) → (char_set_size p ≤ char_set_size q)%Z.
Proof.
  intros Hk. rewrite !char_set_size_classes. cbv zeta.
  pose proof (class_weight_mono _ _ 26 ltac:(lia) (Hk Lowercase)) as H1.
  pose proof (class_weight_mono _ _ 26 ltac:(lia) (Hk Uppercase)) as H2.
  pose proof (class_weight_mono _ _ 10 ltac:(lia) (Hk Digit)) as H3.
  pose proof (class_weight_mono _ _ 32 ltac:(lia) (Hk Punctuation)) as H4.
  destruct (class_weight_cases (has_class Lowercase p) 26) as [[E1 _]|[E1 _]];
  destruct (class_weight_cases (has_class Uppercase p) 26) as [[E2 _]|[E2 _]];
  destruct (class_weight_cases (has_class Digit p) 10) as [[E3 _]|[E3 _]];
  destruct (class_weight_cases (has_class Punctuation p) 32) as [[E4 _]|[E4 _]];
  rewrite E1, E2, E3, E4 in *;
  destruct (class_weight_cases (has_class Lowercase q) 26) as [[F1 _]|[F1 _]];
  destruct (class_weight_cases (has_class Uppercase q) 26) as [[F2 _]|[F2 _]];
  destruct (class_weight_cases (has_class Digit q) 10) as [[F3 _]|[F3 _]];
  destruct (class_weight_cases (has_class Punctuation q) 32) as [[F4 _]|[F4 _]];
  rewrite F1, F2, F3, F4 in *; simpl; lia.
Qed.

Lemma char_set_size_le_94 password : (char_set_size password ≤ 94)%Z.
Proof.
  rewrite char_set_size_classes. cbv zeta.
  destruct (class_weight_cases (has_class Lowercase password) 26) as [[E1 _]|[E1 _]];
  destruct (class_weight_cases (has_class Uppercase password) 26) as [[E2 _]|[E2 _]];
  destruct (class_weight_cases (has_class Digit password) 10) as [[E3 _]|[E3 _]];
  destruct (class_weight_cases (has_class Punctuation password) 32) as [[E4 _]|[E4 _]];
  rewrite E1, E2, E3, E4; simpl; lia.
Qed.

Lemma char_set_size_94 password :
  char_set_size password = 94%Z ↔ ∀ k, has_class k password.
Proof.
  rewrite char_set_size_classes. cbv zeta.
  destruct (class_weight_cases (has_class Lowercase password) 26) as [[E1 P1]|[E1 P1]];
  destruct (class_weight_cases (has_class Uppercase password) 26) as [[E2 P2]|[E2 P2]];
  destruct (class_weight_cases (has_class Digit password) 10) as [[E3 P3]|[E3 P3]];
  destruct (class_weight_cases (has_class Punctuation password) 32) as [[E4 P4]|[E4 P4]];
  rewrite E1, E2, E3, E4; simpl;
  (split; [intros Hs; try lia; by intros []|intros Hall; try reflexivity]).
  all: first [ by destruct (P1 (Hall Lowercase)) | by destruct (P2 (Hall Uppercase))
             | by destruct (P3 (Hall Digit)) | by destruct (P4 (Hall Punctuation)) ].
Qed.

Lemma len_nonneg password : (0 <= IZR (Py.len password))%R.
Proof. apply IZR_le. unfold Py.len. lia. Qed.

Lemma entropy_unfold password :
  analyze_entropy password
  = (log2 (IZR (char_set_size password)) * IZR (Py.len password))%R.
Proof.
  destruct password as [|c password]; [|reflexivity].
  unfold analyze_entropy, Py.len. cbn [length Z.of_nat].
  by rewrite Rmult_0_r.
Qed.

(** X4. The alphabet never exceeds 94 symbols, it is 94 exactly when all
    four classes occur, and so the entropy is at most log2(94) per
    character. *)
Theorem entropy_upper_bound password :
  (char_set_size password ≤ 94)%Z
  ∧ (char_set_size password = 94%Z ↔ ∀ k, has_class k password)
  ∧ (analyze_entropy password <= log2 94 * IZR (Py.len password))%R.
Proof.
  split; [apply char_set_size_le_94|]. split; [apply char_set_size_94|].
  rewrite entropy_unfold. apply Rmult_le_compat_r; [apply len_nonneg|].
  apply log2_le.
  - apply IZR_lt. pose proof (char_set_size_ge_10 password). lia.
  - apply IZR_le, char_set_size_le_94.
Qed.

(** X5. Adding characters, in front or behind, never lowers the entropy. *)
Theorem entropy_grows_with_more_characters p q :
  (analyze_entropy p <= analyze_entropy (p ++ q))%R
  ∧ (analyze_entropy q <= analyze_entropy (p ++ q))%R.
Proof.
  assert (∀ p' q', (∀ k, has_class k p' → has_class k q') →
            length p' ≤ length q' →
            (analyze_entropy p' <= analyze_entropy q')%R) as Hmono.
  { intros p' q' Hk Hlen. rewrite !entropy_unfold.
    apply Rmult_le_compat.
    - pose proof (log2_size_ge p'). pose proof log2_10_pos. lra.
    - apply len_nonneg.
    - apply log2_le.
      + apply IZR_lt. pose proof (char_set_size_ge_10 p'). lia.
      + apply IZR_le. by apply char_set_size_mono.
    - apply IZR_le. unfold Py.len. lia. }
  split; apply Hmono; try (rewrite length_app; lia);
    intros k Hk; apply has_class_app; tauto.
Qed.

Lemma IZR_len_INR password : IZR (Py.len password) = INR (length password).
Proof. unfold Py.len. symmetry. apply INR_IZR_INZ. Qed.

(** 2 to the entropy is the alphabet size to the length. *)
Lemma guesses_power password :
  Rpower 2 (analyze_entropy password)
  = (IZR (char_set_size password) ^ length password)%R.
Proof.
  assert (0 < IZR (char_set_size password))%R as Hpos.
  { apply IZR_lt. pose proof (char_set_size_ge_10 password). lia. }
  rewrite entropy_unfold, IZR_len_INR, <- Rpower_mult.
  unfold log2. rewrite Rpower_Rlog by lra.
  by apply Rpower_pow.
Qed.

End EntropyMore.

(** ** Pattern detection: results, bounds and runs *)

Section PatternsMore.

Context `{UnicodeTables}.
Implicit Types (password p q : list N) (i n : nat) (c : N).

Lemma count_hits_le_len {A} (f : A → bool) (xs : list A) :
  (count_hits f xs ≤ Py.len xs)%Z.
Proof.
  induction xs as [|x xs IH]; [done|].
  rewrite count_hits_cons. unfold Py.len in *. simpl length.
  destruct (f x); lia.
Qed.

Lemma count_hits_disjoint {A} (f g : A → bool) (xs : list A) :
  (∀ x, x ∈ xs → ¬ (f x = true ∧ g x = true)) →
  (count_hits f xs + count_hits g xs ≤ Py.len xs)%Z.
Proof.
  induction xs as [|x xs IH]; intros Hfg; [done|].
  rewrite !count_hits_cons.
  assert (count_hits f xs + count_hits g xs ≤ Py.len xs)%Z as IH'.
  { apply IH. intros y Hy. apply Hfg. by right. }
  assert (¬ (f x = true ∧ g x = true)) as Hx by (apply Hfg; by left).
  unfold Py.len in *. simpl length.
  destruct (f x), (g x); solve [lia | by destruct Hx].
Qed.

Lemma count_hits_all {A} (f : A → bool) (xs : list A) :
  (∀ x, x ∈ xs → f x = true) → count_hits f xs = Py.len xs.
Proof.
  induction xs as [|x xs IH]; intros Hf; [done|].
  rewrite count_hits_cons, IH by (intros y Hy; apply Hf; by right).
  rewrite (Hf x) by (by left). unfold Py.len. simpl length. lia.
Qed.

Lemma count_hits_none {A} (f : A → bool) (xs : list A) :
  (∀ x, x ∈ xs → f x = false) → count_hits f xs = 0%Z.
Proof.
  induction xs as [|x xs IH]; intros Hf; [done|].
  rewrite count_hits_cons, IH by (intros y Hy; apply Hf; by right).
  by rewrite (Hf x) by (by left).
Qed.

Lemma count_hits_impl {A} (f g : A → bool) (xs : list A) :
  (∀ x, x ∈ xs → f x = true → g x = true) →
  (count_hits f xs ≤ count_hits g xs)%Z.
Proof.
  induction xs as [|x xs IH]; intros Hfg; [done|].
  rewrite !count_hits_cons.
  assert (count_hits f xs ≤ count_hits g xs)%Z
    by (apply IH; intros y Hy; apply Hfg; by right).
  assert (f x = true → g x = true) as Hx by (apply Hfg; by left).
  destruct (f x), (g x); solve [lia | by specialize (Hx eq_refl)].
Qed.

Lemma range_len (z : Z) : Py.len (Py.range z) = Z.max 0 z.
Proof. unfold Py.len, Py.range. rewrite length_seq. lia. Qed.

(** A window is sequential when it reads a, a+1, a+2, and repeated when it
    reads a, a, a. *)
Lemma sequential_at_true password i :
  sequential_at password i = Some true ↔
  ∃ a, password !! i = Some a ∧ password !! (i + 1) = Some (a + 1)%N
       ∧ password !! (i + 2) = Some (a + 2)%N.
Proof.
  unfold sequential_at, Py.index. split.
  - destruct (password !! i) as [a|]; [|done]. simpl.
    destruct (password !! (i + 1)) as [b|]; [|done]. simpl.
    case_decide as Hab; [|done].
    destruct (password !! (i + 2)) as [c|]; [|done]. simpl.
    intros [= Hbc%bool_decide_eq_true]. exists a. subst b.
    repeat split. f_equal. lia.
  - intros (a & -> & -> & ->). simpl. rewrite decide_True by done. simpl.
    f_equal. apply bool_decide_eq_true. lia.
Qed.

Lemma repeated_at_true password i :
  repeated_at password i = Some true ↔
  ∃ a, password !! i = Some a ∧ password !! (i + 1) = Some a
       ∧ password !! (i + 2) = Some a.
Proof.
  unfold repeated_at, Py.index. split.
  - destruct (password !! i) as [a|]; [|done]. simpl.
    destruct (password !! (i + 1)) as [b|]; [|done]. simpl.
    case_decide as Hab; [|done].
    destruct (password !! (i + 2)) as [c|]; [|done]. simpl.
    intros [= Hbc%bool_decide_eq_true]. exists a. by subst.
  - intros (a & -> & -> & ->). simpl. rewrite decide_True by done. simpl.
    f_equal. by apply bool_decide_eq_true.
Qed.

Lemma default_hit_true (hit : option bool) :
  default false hit = true ↔ hit = Some true.
Proof. destruct hit as [[]|]; simpl; split; congruence. Qed.

Lemma not_sequential_and_repeated password i :
  ¬ (default false (sequential_at password i) = true
     ∧ default false (repeated_at password i) = true).
Proof.
  rewrite !default_hit_true, sequential_at_true, repeated_at_true.
  intros [(a & Ha & Hb & _) (b & Ha' & Hb' & _)].
  rewrite Ha in Ha'. injection Ha' as <-. rewrite Hb in Hb'.
  injection Hb' as Hab. lia.
Qed.

Lemma keyboard_slices_len : Py.len keyboard_slices = 20%Z.
Proof. reflexivity. Qed.

Lemma common_words_len : Py.len common_words = 10%Z.
Proof. reflexivity. Qed.

(** X10. [find_patterns] never raises: it returns a dict with exactly the
    four counters, none negative, with at most 20 keyboard hits and 10
    common-word hits, and with at most one sequential or repeated hit per
    window of three characters. *)
Theorem find_patterns_result password :
  ∃ s r k c : Z,
    find_patterns password =
      Some {[ "sequential_chars" := s; "repeated_chars" := r;
              "keyboard_patterns" := k; "common_words" := c ]}
    ∧ (0 ≤ s)%Z ∧ (0 ≤ r)%Z ∧ (0 ≤ k ≤ 20)%Z ∧ (0 ≤ c ≤ 10)%Z
    ∧ (s + r ≤ Z.max 0 (Py.len password - 2))%Z.
Proof.
  eexists _, _, _, _. split; [apply find_patterns_counts|].
  split; [apply count_hits_nonneg|]. split; [apply count_hits_nonneg|].
  split; [|split].
  - rewrite <- keyboard_slices_len. unfold keyboard_hits.
    split; [apply (count_hits_nonneg _ keyboard_slices)|].
    apply (count_hits_le_len _ keyboard_slices).
  - rewrite <- common_words_len. unfold common_word_hits.
    split; [apply (count_hits_nonneg _ common_words)|].
    apply (count_hits_le_len _ common_words).
  - rewrite <- range_len. apply count_hits_disjoint.
    intros i _. apply not_sequential_and_repeated.
Qed.

Lemma patterns_dict_lookup (a b c d : Z) :
  let m : gmap string Z :=
    {[ "sequential_chars" := a; "repeated_chars" := b;
       "keyboard_patterns" := c; "common_words" := d ]} in
  m !! "sequential_chars" = Some a ∧ m !! "repeated_chars" = Some b
  ∧ m !! "keyboard_patterns" = Some c ∧ m !! "common_words" = Some d.
Proof. cbv zeta. repeat split; by simplify_map_eq. Qed.

Lemma pattern_count_values password :
  pattern_count "sequential_chars" password = Some (sequential_hits password)
  ∧ pattern_count "repeated_chars" password = Some (repeated_hits password)
  ∧ pattern_count "keyboard_patterns" password
    = Some (Py.len (keyboard_hits password))
  ∧ pattern_count "common_words" password
    = Some (Py.len (common_word_hits password)).
Proof. rewrite !pattern_count_lookup. apply patterns_dict_lookup. Qed.

Lemma in_range_lt (z : Z) i : i ∈ Py.range z → (Z.of_nat i < z)%Z.
Proof. unfold Py.range. rewrite elem_of_seq. lia. Qed.

Lemma replicate_hits c n :
  repeated_hits (replicate n c) = Z.max 0 (Z.of_nat n - 2)
  ∧ sequential_hits (replicate n c) = 0%Z.
Proof.
  assert (Py.len (replicate n c) = Z.of_nat n) as Hlen
    by (unfold Py.len; by rewrite length_replicate).
  unfold repeated_hits, sequential_hits. rewrite Hlen. split.
  - rewrite <- range_len. apply count_hits_all. intros i Hi%in_range_lt.
    apply default_hit_true, repeated_at_true. exists c.
    repeat split; apply lookup_replicate_2; lia.
  - apply count_hits_none. intros i _.
    destruct (default false _) eqn:Hhit; [|done].
    apply default_hit_true, sequential_at_true in Hhit
      as (a & [-> _]%lookup_replicate & [Hb _]%lookup_replicate & _).
    lia.
Qed.

Lemma ascending_run_lookup c n i :
  i < n → ascending_run c n !! i = Some (c + N.of_nat i)%N.
Proof.
  intros Hi. unfold ascending_run.
  by rewrite list_lookup_fmap, lookup_seq_lt.
Qed.

Lemma ascending_run_lookup_inv c n i a :
  ascending_run c n !! i = Some a → a = (c + N.of_nat i)%N.
Proof.
  unfold ascending_run. rewrite list_lookup_fmap.
  destruct (seq 0 n !! i) as [j|] eqn:Hj; [|done].
  apply lookup_seq in Hj as [-> _]. simpl. congruence.
Qed.

Lemma ascending_run_hits c n :
  sequential_hits (ascending_run c n) = Z.max 0 (Z.of_nat n - 2)
  ∧ repeated_hits (ascending_run c n) = 0%Z.
Proof.
  assert (Py.len (ascending_run c n) = Z.of_nat n) as Hlen.
  { unfold Py.len, ascending_run. by rewrite length_fmap, length_seq. }
  unfold repeated_hits, sequential_hits. rewrite Hlen. split.
  - rewrite <- range_len. apply count_hits_all. intros i Hi%in_range_lt.
    apply default_hit_true, sequential_at_true. exists (c + N.of_nat i)%N.
    rewrite !ascending_run_lookup by lia.
    repeat split; f_equal; lia.
  - apply count_hits_none. intros i _.
    destruct (default false _) eqn:Hhit; [|done].
    apply default_hit_true, repeated_at_true in Hhit
      as (a & Ha%ascending_run_lookup_inv & Hb%ascending_run_lookup_inv & _).
    lia.
Qed.

(** X11. Windows overlap: a run of n identical characters counts n - 2
    repeated hits and no sequential hit, and a run of n characters with
    consecutive code points counts n - 2 sequential hits and no repeated
    hit (nothing when n is below 3). *)
Theorem run_counts c n :
  pattern_count "repeated_chars" (replicate n c)
    = Some (Z.max 0 (Z.of_nat n - 2))
  ∧ pattern_count "sequential_chars" (replicate n c) = Some 0%Z
  ∧ pattern_count "sequential_chars" (ascending_run c n)
    = Some (Z.max 0 (Z.of_nat n - 2))
  ∧ pattern_count "repeated_chars" (ascending_run c n) = Some 0%Z.
Proof.
  destruct (pattern_count_values (replicate n c)) as (-> & -> & _).
  destruct (pattern_count_values (ascending_run c n)) as (-> & -> & _).
  destruct (replicate_hits c n) as [-> ->].
  by destruct (ascending_run_hits c n) as [-> ->].
Qed.

(** X12. The keyboard and common-word counters see the password only
    through its lowercase form: two passwords that lower to the same
    string get the same two counters. *)
Theorem lowercase_form_decides_word_counters p q :
  lower p = lower q →
  pattern_count "keyboard_patterns" p = pattern_count "keyboard_patterns" q
  ∧ pattern_count "common_words" p = pattern_count "common_words" q.
Proof.
  intros Heq.
  destruct (pattern_count_values p) as (_ & _ & -> & ->).
  destruct (pattern_count_values q) as (_ & _ & -> & ->).
  unfold keyboard_hits, common_word_hits. by rewrite Heq.
Qed.

End PatternsMore.

Section PatternsAscii.

Context `{UnicodeTables}.
Implicit Types (password p q : list N) (i n : nat) (c : N).

Lemma lower_ascii s : is_ascii s → lower s = ascii_lower <$> s.
Proof. intros Hs. unfold lower. by rewrite decide_True. Qed.

Lemma lower_ascii_length s : is_ascii s → length (lower s) = length s.
Proof. intros Hs. by rewrite lower_ascii, length_fmap. Qed.

Lemma occurs_in_length (needle hay : list N) :
  occurs_in needle hay → length needle ≤ length hay.
Proof. intros (before & after & ->). rewrite !length_app. lia. Qed.

Lemma occurs_in_trans (s p q : list N) :
  occurs_in s p → occurs_in p q → occurs_in s q.
Proof.
  intros (b1 & a1 & ->) (b2 & a2 & ->).
  exists (b2 ++ b1), (a1 ++ a2). by rewrite <- !(assoc_L (++)).
Qed.

(** On ASCII strings lowering keeps occurrences. *)
Lemma occurs_in_lower_ascii p q :
  is_ascii q → occurs_in p q → occurs_in (lower p) (lower q).
Proof.
  intros Hq (before & after & ->).
  pose proof Hq as Hq'. unfold is_ascii in Hq'.
  apply Forall_app in Hq' as [_ [Hp _]%Forall_app].
  rewrite (lower_ascii _ Hq), (lower_ascii _ Hp), !fmap_app.
  by eexists _, _.
Qed.

Lemma keyboard_slices_lowered :
  Forall (λ s, length (lower s) = 3) keyboard_slices.
Proof. apply (bool_decide_unpack _). vm_compute. exact I. Qed.

Lemma common_words_long : Forall (λ w, 3 ≤ length w) common_words.
Proof. apply (bool_decide_unpack _). vm_compute. exact I. Qed.

Lemma contains_false_short (hay needle : list N) :
  length hay < length needle → Py.contains hay needle = false.
Proof.
  intros Hlen. destruct (Py.contains hay needle) eqn:Hc; [|done].
  apply contains_occurs, occurs_in_length in Hc. lia.
Qed.

Lemma filter_nil_all {A} (f : A → bool) (xs : list A) :
  (∀ x, x ∈ xs → f x = false) → filter (λ x, f x) xs = [].
Proof.
  induction xs as [|x xs IH]; intros Hf; [done|].
  rewrite filter_cons, (Hf x) by (by left). simpl.
  apply IH. intros y Hy. apply Hf. by right.
Qed.

(** X13. An ASCII password of fewer than three characters has no pattern
    at all: the four counters are zero. *)
Theorem short_password_has_no_pattern password :
  is_ascii password → length password < 3 →
  find_patterns password =
    Some {[ "sequential_chars" := 0%Z; "repeated_chars" := 0%Z;
            "keyboard_patterns" := 0%Z; "common_words" := 0%Z ]}.
Proof.
  intros Hascii Hlen. rewrite find_patterns_counts.
  assert (Py.range (Py.len password - 2) = []) as Hrange.
  { unfold Py.range, Py.len. by replace (Z.to_nat _) with 0 by lia. }
  assert (keyboard_hits password = []) as ->.
  { apply filter_nil_all. intros s Hs. apply contains_false_short.
    pose proof keyboard_slices_lowered as Hall.
    rewrite Forall_forall in Hall. rewrite (Hall s Hs), lower_ascii_length; done. }
  assert (common_word_hits password = []) as ->.
  { apply filter_nil_all. intros w Hw. apply contains_false_short.
    pose proof common_words_long as Hall. rewrite Forall_forall in Hall.
    specialize (Hall w Hw). rewrite lower_ascii_length by done. lia. }
  unfold sequential_hits, repeated_hits. by rewrite Hrange.
Qed.

(** Hits of a window scan survive a shift of the string. *)
Lemma count_hits_shift (f g : nat → bool) (a m n : nat) :
  (∀ i, i < m → f i = true → g (a + i) = true) →
  a + m ≤ n →
  (count_hits f (seq 0 m) ≤ count_hits g (seq 0 n))%Z.
Proof.
  intros Hfg Hle.
  replace n with (a + (m + (n - a - m))) by lia.
  rewrite seq_app, count_hits_app, seq_app, count_hits_app. simpl.
  replace (seq a m) with (Nat.add a <$> seq 0 m)
    by (rewrite fmap_add_seq; f_equal; lia).
  rewrite count_hits_fmap.
  pose proof (count_hits_nonneg g (seq 0 a)).
  pose proof (count_hits_nonneg g (seq (a + m) (n - a - m))).
  assert (count_hits f (seq 0 m) ≤ count_hits (g ∘ Nat.add a) (seq 0 m))%Z.
  { apply count_hits_impl. intros i Hi%elem_of_seq Hf. apply Hfg; [lia|done]. }
  lia.
Qed.

Lemma lookup_embedded (before p after : list N) i a :
  p !! i = Some a → (before ++ p ++ after) !! (length before + i) = Some a.
Proof.
  intros Hi. rewrite lookup_app_r by lia.
  replace (length before + i - length before) with i by lia.
  by apply lookup_app_l_Some.
Qed.

Lemma window_hits_embedded (hit : list N → nat → option bool)
    (before p after : list N) :
  (∀ i, hit p i = Some true →
        hit (before ++ p ++ after) (length before + i) = Some true) →
  (count_hits (λ i, default false (hit p i)) (Py.range (Py.len p - 2))
   ≤ count_hits (λ i, default false (hit (before ++ p ++ after) i))
       (Py.range (Py.len (before ++ p ++ after) - 2)))%Z.
Proof.
  intros Hhit. unfold Py.range, Py.len. rewrite !length_app.
  destruct (decide (length p < 2)) as [Hshort|Hlong].
  - replace (Z.to_nat (Z.of_nat (length p) - 2)) with 0 by lia.
    apply count_hits_nonneg.
  - apply (count_hits_shift _ _ (length before)); [|lia].
    intros i _ Hi. apply default_hit_true. by apply Hhit, default_hit_true.
Qed.

(** X14. Wrapping an ASCII password in further ASCII characters never
    loses a detected pattern: each of the four counters of the longer
    password is at least the counter of the part it contains. *)
Theorem patterns_survive_embedding p q :
  is_ascii q → occurs_in p q →
  ∃ s r k c s' r' k' c' : Z,
    find_patterns p =
      Some {[ "sequential_chars" := s; "repeated_chars" := r;
              "keyboard_patterns" := k; "common_words" := c ]}
    ∧ find_patterns q =
      Some {[ "sequential_chars" := s'; "repeated_chars" := r';
              "keyboard_patterns" := k'; "common_words" := c' ]}
    ∧ (s ≤ s')%Z ∧ (r ≤ r')%Z ∧ (k ≤ k')%Z ∧ (c ≤ c')%Z.
Proof.
  intros Hascii Hpq.
  pose proof (occurs_in_lower_ascii p q Hascii Hpq) as Hlow.
  destruct Hpq as (before & after & ->).
  eexists _, _, _, _, _, _, _, _.
  split; [apply find_patterns_counts|]. split; [apply find_patterns_counts|].
  split; [|split; [|split]].
  - apply (window_hits_embedded sequential_at). intros i.
    rewrite !sequential_at_true. intros (a & Ha & Hb & Hc). exists a.
    rewrite <- !Nat.add_assoc. repeat split; by apply lookup_embedded.
  - apply (window_hits_embedded repeated_at). intros i.
    rewrite !repeated_at_true. intros (a & Ha & Hb & Hc). exists a.
    rewrite <- !Nat.add_assoc. repeat split; by apply lookup_embedded.
  - apply (count_hits_impl
             (λ s, Py.contains (lower p) (lower s))
             (λ s, Py.contains (lower (before ++ p ++ after)) (lower s))).
    intros s _. rewrite !contains_occurs. intros Hs.
    by apply (occurs_in_trans _ (lower p)).
  - apply (count_hits_impl
             (λ w, Py.contains (lower p) w)
             (λ w, Py.contains (lower (before ++ p ++ after)) w)).
    intros w _. rewrite !contains_occurs. intros Hw.
    by apply (occurs_in_trans _ (lower p)).
Qed.

End PatternsAscii.

(** ** Suggestions: the rules in closed form *)

Section SuggestionsMore.

Implicit Types (password : list N) (char_distribution patterns : gmap string Z).

(** With the eight entries present, the appends of the source add up to
    the texts of the rules that fire. *)
Lemma get_suggestions_fired password char_distribution patterns
    (lo up di sp s r k c : Z) :
  password ≠ [] →
  char_distribution !! "lowercase" = Some lo →
  char_distribution !! "uppercase" = Some up →
  char_distribution !! "digits" = Some di →
  char_distribution !! "special" = Some sp →
  patterns !! "sequential_chars" = Some s →
  patterns !! "repeated_chars" = Some r →
  patterns !! "keyboard_patterns" = Some k →
  patterns !! "common_words" = Some c →
  get_suggestions password char_distribution patterns =
    Some (let fired := fired_rules (Py.len password) lo up di sp s r k c in
          if decide (fired = []) then [Text.looks_good] else fired).
Proof.
  intros Hne Hlo Hup Hdi Hsp Hs Hr Hk Hc.
  unfold get_suggestions, fired_rules.
  destruct (decide (password = [])) as [|_]; [done|].
  rewrite Hlo, Hup, Hdi, Hsp, Hs, Hr, Hk, Hc. cbn [mbind option_bind].
  destruct (decide (Py.len password < 12)%Z);
  destruct (decide (lo = 0%Z)); destruct (decide (up = 0%Z));
  destruct (decide (di = 0%Z)); destruct (decide (sp = 0%Z));
  destruct (decide (s > 0)%Z); destruct (decide (r > 0)%Z);
  destruct (decide (k > 0)%Z); destruct (decide (c > 0)%Z);
  reflexivity.
Qed.

Lemma rule_sublist (P : Prop) `{!Decision P} (t : string) :
  (if decide P then [t] else []) `sublist_of` [t].
Proof. case_decide; [done|apply sublist_nil_l]. Qed.

Lemma fired_rules_sublist (len lo up di sp s r k c : Z) :
  fired_rules len lo up di sp s r k c `sublist_of` rule_texts.
Proof.
  change rule_texts with
    ([Text.longer] ++ [Text.add_lowercase] ++ [Text.add_uppercase]
     ++ [Text.add_numbers] ++ [Text.add_special] ++ [Text.avoid_sequential]
     ++ [Text.avoid_repeated] ++ [Text.avoid_keyboard] ++ [Text.avoid_common]).
  unfold fired_rules. repeat apply sublist_app; apply rule_sublist.
Qed.

(** A result needs the eight entries the rules read. *)
Lemma get_suggestions_keys password char_distribution patterns :
  password ≠ [] →
  is_Some (get_suggestions password char_distribution patterns) →
  is_Some (char_distribution !! "lowercase")
  ∧ is_Some (char_distribution !! "uppercase")
  ∧ is_Some (char_distribution !! "digits")
  ∧ is_Some (char_distribution !! "special")
  ∧ is_Some (patterns !! "sequential_chars")
  ∧ is_Some (patterns !! "repeated_chars")
  ∧ is_Some (patterns !! "keyboard_patterns")
  ∧ is_Some (patterns !! "common_words").
Proof.
  intros Hne. unfold get_suggestions.
  destruct (decide (password = [])) as [|_]; [done|].
  destruct (char_distribution !! "lowercase"); [|by intros [? [=]]].
  destruct (char_distribution !! "uppercase"); [|by intros [? [=]]].
  destruct (char_distribution !! "digits"); [|by intros [? [=]]].
  destruct (char_distribution !! "special"); [|by intros [? [=]]].
  destruct (patterns !! "sequential_chars"); [|by intros [? [=]]].
  destruct (patterns !! "repeated_chars"); [|by intros [? [=]]].
  destruct (patterns !! "keyboard_patterns"); [|by intros [? [=]]].
  destruct (patterns !! "common_words"); [|by intros [? [=]]].
  intros _. repeat split; by eexists.
Qed.

(** X15. Whatever [get_suggestions] returns is never empty: it is the
    prompt alone, the looks-good text alone, or some of the nine rule
    texts in the order of the rules, each at most once. *)
Theorem suggestions_shape password char_distribution patterns
    (suggestions : list string) :
  get_suggestions password char_distribution patterns = Some suggestions →
  suggestions ≠ []
  ∧ length suggestions ≤ 9
  ∧ (suggestions = [Text.prompt] ∨ suggestions = [Text.looks_good]
     ∨ suggestions `sublist_of` rule_texts).
Proof.
  intros Hres. destruct (decide (password = [])) as [->|Hne].
  { injection Hres as <-. split; [done|]. split; [simpl; lia|by left]. }
  destruct (get_suggestions_keys password char_distribution patterns Hne)
    as ([lo Hlo] & [up Hup] & [di Hdi] & [sp Hsp]
        & [s Hs] & [r Hr] & [k Hk] & [c Hc]);
    [by rewrite Hres|].
  rewrite (get_suggestions_fired _ _ _ lo up di sp s r k c) in Hres by done.
  injection Hres as <-. cbv zeta.
  pose proof (fired_rules_sublist (Py.len password) lo up di sp s r k c) as Hsub.
  case_decide as Hfired.
  - split; [done|]. split; [simpl; lia|]. right. by left.
  - split; [done|]. split; [|by do 2 right].
    apply sublist_length in Hsub. simpl in Hsub. lia.
Qed.

(** X16. On a non-empty password [get_suggestions] returns a list exactly
    when the two dicts hold the eight entries the rules read; with any of
    them missing the call fails. *)
Theorem suggestions_need_eight_keys password char_distribution patterns :
  password ≠ [] →
  is_Some (get_suggestions password char_distribution patterns)
  ↔ (∀ key, key ∈ ["lowercase"; "uppercase"; "digits"; "special"]%string →
            is_Some (char_distribution !! key))
    ∧ (∀ key, key ∈ ["sequential_chars"; "repeated_chars";
                     "keyboard_patterns"; "common_words"]%string →
              is_Some (patterns !! key)).
Proof.
  intros Hne. split.
  - intros Hsome.
    destruct (get_suggestions_keys _ _ _ Hne Hsome)
      as (? & ? & ? & ? & ? & ? & ? & ?).
    split; intros key Hkey; rewrite !elem_of_cons, elem_of_nil in Hkey;
      destruct Hkey as [->|[->|[->|[->|[]]]]]; assumption.
  - intros [Hd Hp].
    destruct (Hd "lowercase") as [lo Hlo]; [repeat constructor|].
    destruct (Hd "uppercase") as [up Hup]; [repeat constructor|].
    destruct (Hd "digits") as [di Hdi]; [repeat constructor|].
    destruct (Hd "special") as [sp Hsp]; [repeat constructor|].
    destruct (Hp "sequential_chars") as [s Hs]; [repeat constructor|].
    destruct (Hp "repeated_chars") as [r Hr]; [repeat constructor|].
    destruct (Hp "keyboard_patterns") as [k Hk]; [repeat constructor|].
    destruct (Hp "common_words") as [c Hc]; [repeat constructor|].
    by rewrite (get_suggestions_fired _ _ _ lo up di sp s r k c).
Qed.

(** X17. The count of other characters plays no part: changing the
    "other" entry of the distribution never changes the suggestions. *)
Theorem suggestions_ignore_other password char_distribution patterns (v : Z) :
  get_suggestions password (<["other" := v]> char_distribution) patterns
  = get_suggestions password char_distribution patterns.
Proof.
  unfold get_suggestions. by rewrite !lookup_insert_ne.
Qed.

End SuggestionsMore.

(** ** [get_suggestions] on the dicts of the analyzers *)

Section Pipeline.

Context `{UnicodeTables}.
Implicit Types (password : list N) (k : char_class).

Lemma elem_of_rule (P : Prop) `{!Decision P} (t t' : string) :
  t ∈ (if decide P then [t'] else []) ↔ P ∧ t = t'.
Proof.
  case_decide.
  - rewrite list_elem_of_singleton. tauto.
  - rewrite elem_of_nil. tauto.
Qed.

Lemma elem_of_fired (t : string) (len lo up di sp s r k c : Z) :
  t ∈ fired_rules len lo up di sp s r k c ↔
    ((len < 12)%Z ∧ t = Text.longer)
    ∨ (lo = 0%Z ∧ t = Text.add_lowercase)
    ∨ (up = 0%Z ∧ t = Text.add_uppercase)
    ∨ (di = 0%Z ∧ t = Text.add_numbers)
    ∨ (sp = 0%Z ∧ t = Text.add_special)
    ∨ ((s > 0)%Z ∧ t = Text.avoid_sequential)
    ∨ ((r > 0)%Z ∧ t = Text.avoid_repeated)
    ∨ ((k > 0)%Z ∧ t = Text.avoid_keyboard)
    ∨ ((c > 0)%Z ∧ t = Text.avoid_common).
Proof. unfold fired_rules. by rewrite !elem_of_app, !elem_of_rule. Qed.

Lemma elem_of_shown (t : string) (fired : list string) :
  t ≠ Text.looks_good →
  t ∈ (if decide (fired = []) then [Text.looks_good] else fired) ↔ t ∈ fired.
Proof.
  intros Ht. case_decide as Hf; [|done]. subst fired.
  rewrite list_elem_of_singleton, elem_of_nil. tauto.
Qed.

(** The composition in closed form. *)
Lemma analyzed_suggestions_fired password :
  password ≠ [] →
  analyzed_suggestions password =
    Some (let fired :=
            fired_rules (Py.len password)
              (count_if (λ c, c ∈ class_chars Lowercase) password)
              (count_if (λ c, c ∈ class_chars Uppercase) password)
              (count_if (λ c, c ∈ class_chars Digit) password)
              (count_if (λ c, c ∈ class_chars Punctuation) password)
              (sequential_hits password) (repeated_hits password)
              (Py.len (keyboard_hits password))
              (Py.len (common_word_hits password)) in
          if decide (fired = []) then [Text.looks_good] else fired).
Proof.
  intros Hne. unfold analyzed_suggestions. cbv zeta.
  rewrite find_patterns_counts, bind_Some.
  destruct (patterns_dict_lookup (sequential_hits password)
              (repeated_hits password) (Py.len (keyboard_hits password))
              (Py.len (common_word_hits password))) as (Hs & Hr & Hk & Hc).
  by apply get_suggestions_fired.
Qed.

Lemma count_zero_iff_absent k password :
  count_if (λ c, c ∈ class_chars k) password = 0%Z ↔ ¬ has_class k password.
Proof.
  pose proof (count_if_nonneg (λ c, c ∈ class_chars k) password).
  pose proof (count_if_pos (λ c, c ∈ class_chars k) password) as Hpos.
  unfold has_class. rewrite <- Hpos. lia.
Qed.

Ltac pick_rule :=
  (rewrite elem_of_shown by done); rewrite elem_of_fired;
  split;
  [ intros Hor;
    repeat (destruct Hor as [[Hc Heq]|Hor]; [first [exact Hc|discriminate Heq]|]);
    destruct Hor as [Hc Heq]; first [exact Hc|discriminate Heq]
  | intros Hc;
    repeat first [ left; split; [exact Hc|reflexivity]
                 | split; [exact Hc|reflexivity]
                 | right ] ].

(** X18. When [get_suggestions] is given a non-empty password and the
    dicts the two analyzers return for it, it returns a list in which the
    "longer" text appears exactly when the password has fewer than 12
    characters, and the text asking for a class appears exactly when the
    password has no character of that class. *)
Theorem class_suggestions_meaning password :
  password ≠ [] →
  ∃ suggestions,
    analyzed_suggestions password = Some suggestions
    ∧ (Text.longer ∈ suggestions ↔ length password < 12)
    ∧ (Text.add_lowercase ∈ suggestions ↔ ¬ has_class Lowercase password)
    ∧ (Text.add_uppercase ∈ suggestions ↔ ¬ has_class Uppercase password)
    ∧ (Text.add_numbers ∈ suggestions ↔ ¬ has_class Digit password)
    ∧ (Text.add_special ∈ suggestions ↔ ¬ has_class Punctuation password).
Proof.
  intros Hne. eexists. split; [by apply analyzed_suggestions_fired|]. cbv zeta.
  rewrite <- !count_zero_iff_absent.
  assert (length password < 12 ↔ (Py.len password < 12)%Z) as ->
    by (unfold Py.len; lia).
  split; [pick_rule|]. split; [pick_rule|]. split; [pick_rule|].
  split; pick_rule.
Qed.

Lemma count_hits_pos {A} (f : A → bool) (xs : list A) :
  (count_hits f xs > 0)%Z ↔ ∃ x, x ∈ xs ∧ f x = true.
Proof.
  induction xs as [|x xs IH].
  - rewrite count_hits_nil. split; [lia|]. intros (x & Hx & _).
    by apply elem_of_nil in Hx.
  - rewrite count_hits_cons. pose proof (count_hits_nonneg f xs). split.
    + destruct (f x) eqn:Hfx.
      * intros _. exists x. split; [by left|done].
      * intros Hpos. destruct IH as [IH _].
        destruct IH as (y & Hy & Hfy); [lia|]. exists y. split; [by right|done].
    + intros (y & [->|Hy]%elem_of_cons & Hfy).
      * rewrite Hfy. lia.
      * destruct IH as [_ IH]. specialize (IH (ex_intro _ y (conj Hy Hfy))).
        destruct (f x); lia.
Qed.

(** Three characters in a row at some position are an occurrence. *)
Lemma window_occurs (p : list N) (a b c : N) :
  (∃ i, p !! i = Some a ∧ p !! (i + 1) = Some b ∧ p !! (i + 2) = Some c)
  ↔ occurs_in [a; b; c] p.
Proof.
  split.
  - intros (i & Ha & Hb & Hc). exists (take i p), (drop (i + 3) p).
    rewrite <- (take_drop i p) at 1. f_equal.
    rewrite (drop_S _ a i Ha). simpl.
    replace (S i) with (i + 1) by lia. rewrite (drop_S _ b (i + 1) Hb).
    replace (S (i + 1)) with (i + 2) by lia. rewrite (drop_S _ c (i + 2) Hc).
    by replace (S (i + 2)) with (i + 3) by lia.
  - intros (before & after & ->). exists (length before).
    repeat split.
    + by rewrite lookup_app_r, Nat.sub_diag.
    + rewrite lookup_app_r by lia.
      by replace (length before + 1 - length before) with 1 by lia.
    + rewrite lookup_app_r by lia.
      by replace (length before + 2 - length before) with 2 by lia.
Qed.

Lemma window_in_range password i a :
  password !! (i + 2) = Some a → i ∈ Py.range (Py.len password - 2).
Proof.
  intros Hi%lookup_lt_Some. unfold Py.range, Py.len.
  apply elem_of_seq. lia.
Qed.

Lemma sequential_hits_pos password :
  (sequential_hits password > 0)%Z ↔
  ∃ a, occurs_in [a; (a + 1)%N; (a + 2)%N] password.
Proof.
  unfold sequential_hits. rewrite count_hits_pos. split.
  - intros (i & _ & Hi). apply default_hit_true, sequential_at_true in Hi
      as (a & Hi). exists a. apply window_occurs. by exists i.
  - intros (a & (i & Ha & Hb & Hc)%window_occurs). exists i.
    split; [by eapply window_in_range|].
    apply default_hit_true, sequential_at_true. by exists a.
Qed.

Lemma repeated_hits_pos password :
  (repeated_hits password > 0)%Z ↔ ∃ a, occurs_in [a; a; a] password.
Proof.
  unfold repeated_hits. rewrite count_hits_pos. split.
  - intros (i & _ & Hi). apply default_hit_true, repeated_at_true in Hi
      as (a & Hi). exists a. apply window_occurs. by exists i.
  - intros (a & (i & Ha & Hb & Hc)%window_occurs). exists i.
    split; [by eapply window_in_range|].
    apply default_hit_true, repeated_at_true. by exists a.
Qed.

Lemma keyboard_slices_lower_id s : s ∈ keyboard_slices → lower s = s.
Proof.
  revert s. apply Forall_forall. apply (bool_decide_unpack _).
  vm_compute. exact I.
Qed.

Lemma keyboard_hits_pos password :
  (Py.len (keyboard_hits password) > 0)%Z ↔
  ∃ s, s ∈ keyboard_slices ∧ occurs_in s (lower password).
Proof.
  change (Py.len (keyboard_hits password)) with
    (count_hits (λ s, Py.contains (lower password) (lower s)) keyboard_slices).
  rewrite count_hits_pos.
  split; intros (s & Hs & Hocc); exists s; (split; [done|]).
  - apply contains_occurs in Hocc. by rewrite keyboard_slices_lower_id in Hocc.
  - apply contains_occurs. by rewrite keyboard_slices_lower_id.
Qed.

Lemma common_word_hits_pos password :
  (Py.len (common_word_hits password) > 0)%Z ↔
  ∃ w, w ∈ common_words ∧ occurs_in w (lower password).
Proof.
  change (Py.len (common_word_hits password)) with
    (count_hits (λ w, Py.contains (lower password) w) common_words).
  rewrite count_hits_pos.
  split; intros (w & Hw & Hocc); exists w; (split; [done|]);
    by apply contains_occurs.
Qed.

(** X19. When [get_suggestions] is given a non-empty password and the
    dicts the two analyzers return for it, it returns a list in which each
    of the four "avoid" texts appears exactly when the password holds what
    it names: three characters with consecutive code points, three equal
    characters in a row, a keyboard slice in the lowered password, a
    common word in the lowered password. *)
Theorem pattern_suggestions_meaning password :
  password ≠ [] →
  ∃ suggestions,
    analyzed_suggestions password = Some suggestions
    ∧ (Text.avoid_sequential ∈ suggestions
       ↔ ∃ a, occurs_in [a; (a + 1)%N; (a + 2)%N] password)
    ∧ (Text.avoid_repeated ∈ suggestions ↔ ∃ a, occurs_in [a; a; a] password)
    ∧ (Text.avoid_keyboard ∈ suggestions
       ↔ ∃ s, s ∈ keyboard_slices ∧ occurs_in s (lower password))
    ∧ (Text.avoid_common ∈ suggestions
       ↔ ∃ w, w ∈ common_words ∧ occurs_in w (lower password)).
Proof.
  intros Hne. eexists. split; [by apply analyzed_suggestions_fired|]. cbv zeta.
  rewrite <- sequential_hits_pos, <- repeated_hits_pos,
    <- keyboard_hits_pos, <- common_word_hits_pos.
  split; [pick_rule|]. split; [pick_rule|]. split; pick_rule.
Qed.

Lemma rule_nil (P : Prop) `{!Decision P} (t : string) :
  (if decide P then [t] else []) = [] ↔ ¬ P.
Proof. case_decide; split; solve [done | tauto]. Qed.

Lemma fired_rules_nil (len lo up di sp s r k c : Z) :
  fired_rules len lo up di sp s r k c = [] ↔
    ¬ (len < 12)%Z ∧ lo ≠ 0%Z ∧ up ≠ 0%Z ∧ di ≠ 0%Z ∧ sp ≠ 0%Z
    ∧ ¬ (s > 0)%Z ∧ ¬ (r > 0)%Z ∧ ¬ (k > 0)%Z ∧ ¬ (c > 0)%Z.
Proof. unfold fired_rules. by rewrite !app_nil, !rule_nil. Qed.

Lemma looks_good_not_fired (len lo up di sp s r k c : Z) :
  Text.looks_good ∉ fired_rules len lo up di sp s r k c.
Proof.
  rewrite elem_of_fired. intros Hor.
  repeat (destruct Hor as [[_ Heq]|Hor]; [discriminate Heq|]).
  destruct Hor as [_ Heq]. discriminate Heq.
Qed.

Lemma shown_looks_good (fired : list string) :
  Text.looks_good ∉ fired →
  (if decide (fired = []) then [Text.looks_good] else fired) = [Text.looks_good]
  ↔ fired = [].
Proof.
  intros Hnot. case_decide as Hf; [done|]. split; [|done].
  intros ->. destruct Hnot. by left.
Qed.

Lemma patterns_dict_inj (a b c d a' b' c' d' : Z) :
  ({[ "sequential_chars" := a; "repeated_chars" := b;
      "keyboard_patterns" := c; "common_words" := d ]} : gmap string Z)
  = {[ "sequential_chars" := a'; "repeated_chars" := b';
       "keyboard_patterns" := c'; "common_words" := d' ]}
  ↔ a = a' ∧ b = b' ∧ c = c' ∧ d = d'.
Proof.
  split; [|by intros (-> & -> & -> & ->)].
  intros Heq.
  destruct (patterns_dict_lookup a b c d) as (Ha & Hb & Hc & Hd).
  destruct (patterns_dict_lookup a' b' c' d') as (Ha' & Hb' & Hc' & Hd').
  cbv zeta in *. rewrite Heq in Ha, Hb, Hc, Hd.
  repeat split; congruence.
Qed.

(** The result "looks good" of the composition, in terms of the password. *)
Lemma looks_good_iff password :
  analyzed_suggestions password = Some [Text.looks_good] ↔
    12 ≤ length password
    ∧ (∀ k, has_class k password)
    ∧ find_patterns password =
        Some {[ "sequential_chars" := 0%Z; "repeated_chars" := 0%Z;
                "keyboard_patterns" := 0%Z; "common_words" := 0%Z ]}.
Proof.
  destruct (decide (password = [])) as [->|Hne].
  { split; [|simpl; lia].
    unfold analyzed_suggestions. cbv zeta.
    rewrite find_patterns_counts, bind_Some. simpl. intros [=]. }
  rewrite analyzed_suggestions_fired by done. cbv zeta.
  rewrite find_patterns_counts.
  split.
  - intros Hshown. apply (inj Some) in Hshown.
    apply shown_looks_good in Hshown; [|apply looks_good_not_fired].
    apply fired_rules_nil in Hshown
      as (Hlen & Hlo & Hup & Hdi & Hsp & Hs & Hr & Hk & Hc).
    split; [unfold Py.len in Hlen; lia|]. split.
    + intros k. destruct (decide (has_class k password)) as [|Habs]; [done|].
      apply count_zero_iff_absent in Habs. by destruct k.
    + f_equal. apply patterns_dict_inj.
      pose proof (count_hits_nonneg (λ i, default false (sequential_at password i))
                    (Py.range (Py.len password - 2))).
      pose proof (count_hits_nonneg (λ i, default false (repeated_at password i))
                    (Py.range (Py.len password - 2))).
      unfold sequential_hits, repeated_hits, Py.len in *. lia.
  - intros (Hlen & Hall & Hzero). apply (inj Some), patterns_dict_inj in Hzero.
    destruct Hzero as (Hs & Hr & Hk & Hc). f_equal.
    apply shown_looks_good; [apply looks_good_not_fired|].
    apply fired_rules_nil. rewrite Hs, Hr, Hk, Hc.
    rewrite !count_zero_iff_absent.
    repeat split; try lia; try (intros Habs; apply Habs, Hall).
    unfold Py.len. lia.
Qed.

(** X20. [get_suggestions], given a password and the dicts the two
    analyzers return for it, returns the single looks-good text exactly
    for a password of at least 12 characters that has all four classes and
    for which [find_patterns] counts nothing. *)
Theorem looks_good_exactly_when password :
  analyzed_suggestions password = Some [Text.looks_good] ↔
    12 ≤ length password
    ∧ (∀ k, has_class k password)
    ∧ find_patterns password =
        Some {[ "sequential_chars" := 0%Z; "repeated_chars" := 0%Z;
                "keyboard_patterns" := 0%Z; "common_words" := 0%Z ]}.
Proof. apply looks_good_iff. Qed.

End Pipeline.

(** ** Score tables, chart and summary of [main] *)

Section RateTables.

Lemma rate_in_range (score : Z) :
  (0 ≤ score ≤ 4)%Z →
  score = 0%Z ∨ score = 1%Z ∨ score = 2%Z ∨ score = 3%Z ∨ score = 4%Z.
Proof. lia. Qed.

Lemma rate_fallback (score : Z) :
  ¬ (0 ≤ score ≤ 4)%Z →
  get_rate_color score = "#ff0000"%string
  ∧ get_rate_label score = "Very Weak"%string.
Proof.
  intros Hout. unfold get_rate_color, get_rate_label. cbv zeta.
  rewrite !lookup_insert_ne, !lookup_singleton_ne by lia. done.
Qed.

(** X22. A score outside 0..4 is shown like score 0, with the colour and
    the label of "Very Weak"; inside 0..4 different scores have different
    labels and different colours. *)
Theorem rate_tables (score score' : Z) :
  (¬ (0 ≤ score ≤ 4)%Z →
     get_rate_color score = get_rate_color 0
     ∧ get_rate_label score = get_rate_label 0)
  ∧ ((0 ≤ score ≤ 4)%Z → (0 ≤ score' ≤ 4)%Z →
     (get_rate_label score = get_rate_label score' → score = score')
     ∧ (get_rate_color score = get_rate_color score' → score = score')).
Proof.
  split.
  - intros Hout. by destruct (rate_fallback score Hout) as [-> ->].
  - intros Hs Hs'.
    destruct (rate_in_range score Hs) as [->|[->|[->|[->| ->]]]];
    destruct (rate_in_range score' Hs') as [->|[->|[->|[->| ->]]]];
    split; first [reflexivity | vm_compute; intros [=]].
Qed.

End RateTables.

Section Chart.

Implicit Types (password : list N) (values : list Z) (labels : list string).

Lemma zip_non_zero labels values :
  zip (non_zero_labels labels values) (non_zero_values values)
  = filter (λ lv, (lv.2 > 0)%Z) (zip labels values).
Proof.
  unfold non_zero_labels, non_zero_values.
  revert values. induction labels as [|l labels IH]; intros [|v values];
    try reflexivity.
  simpl zip. rewrite !filter_cons. simpl.
  destruct (decide (v > 0)%Z); simpl; by rewrite IH.
Qed.

Lemma non_zero_lengths labels values :
  length labels = length values →
  length (non_zero_labels labels values) = length (non_zero_values values).
Proof.
  unfold non_zero_labels, non_zero_values. rewrite length_fmap.
  revert values. induction labels as [|l labels IH]; intros [|v values] Hlen;
    try done.
  simpl zip. rewrite !filter_cons. simpl.
  destruct (decide (v > 0)%Z); simpl; rewrite IH; by try (injection Hlen).
Qed.

Lemma sum_non_zero values :
  Forall (λ v, (0 ≤ v)%Z) values → Py.sum (non_zero_values values) = Py.sum values.
Proof.
  unfold non_zero_values. induction 1 as [|v values Hv _ IH]; [done|].
  rewrite filter_cons, sum_cons.
  destruct (decide (v > 0)%Z); [by rewrite sum_cons, IH|]. rewrite IH. lia.
Qed.

Lemma sum_five (a b c d e : Z) : Py.sum [a; b; c; d; e] = (a + b + c + d + e)%Z.
Proof. unfold Py.sum. simpl. lia. Qed.

(** The values of the chart are the five counts. *)
Lemma chart_values_counts password :
  chart_values (analyze_character_distribution password) =
    Some [ count_if (λ c, c ∈ Py.ascii_lowercase) password;
           count_if (λ c, c ∈ Py.ascii_uppercase) password;
           count_if (λ c, c ∈ Py.digits) password;
           count_if (λ c, c ∈ Py.punctuation) password;
           count_if (λ c, c ∉ Py.ascii_letters ++ Py.digits ++ Py.punctuation)
             password ].
Proof.
  unfold chart_values. rewrite distribution_unfold.
  destruct (distribution_dict
    (count_if (λ c, c ∈ Py.ascii_lowercase) password)
    (count_if (λ c, c ∈ Py.ascii_uppercase) password)
    (count_if (λ c, c ∈ Py.digits) password)
    (count_if (λ c, c ∈ Py.punctuation) password)
    (count_if (λ c, c ∉ Py.ascii_letters ++ Py.digits ++ Py.punctuation) password))
    as (_ & _ & -> & -> & -> & -> & ->).
  reflexivity.
Qed.

(** X23. The chart of [main] gets consistent data: reading the five
    values never fails, they add up to the length of the password (so the
    chart is drawn exactly for a non-empty password), the two lists
    filtered separately still pair each kept label with its own value,
    and the kept values still add up to the length. *)
Theorem chart_data password :
  ∃ values,
    chart_values (analyze_character_distribution password) = Some values
    ∧ length values = length chart_labels
    ∧ Py.sum values = Py.len password
    ∧ ((Py.sum values > 0)%Z ↔ password ≠ [])
    ∧ zip (non_zero_labels chart_labels values) (non_zero_values values)
      = filter (λ lv, (lv.2 > 0)%Z) (zip chart_labels values)
    ∧ length (non_zero_labels chart_labels values)
      = length (non_zero_values values)
    ∧ Py.sum (non_zero_values values) = Py.len password.
Proof.
  eexists. split; [apply chart_values_counts|].
  pose proof (counts_add_up password) as Hsum.
  split; [reflexivity|]. rewrite sum_non_zero, sum_five.
  - split; [exact Hsum|]. split.
    + rewrite Hsum. unfold Py.len. destruct password; simpl; split; try done; lia.
    + split; [apply zip_non_zero|]. split; [by apply non_zero_lengths|exact Hsum].
  - repeat constructor; apply count_if_nonneg.
Qed.

Lemma uppercase_position (lo up di sp ot : Z) :
  (up > 0)%Z →
  ((lo ≤ 0)%Z →
   non_zero_labels chart_labels [lo; up; di; sp; ot] !! 0
   = Some "Uppercase"%string)
  ∧ ((lo > 0)%Z →
     non_zero_labels chart_labels [lo; up; di; sp; ot] !! 1
     = Some "Uppercase"%string).
Proof.
  intros Hup. unfold non_zero_labels, chart_labels. simpl zip.
  rewrite !filter_cons. cbn [snd].
  split; intros Hlo.
  - rewrite (decide_False (P := (lo > 0)%Z)) by lia.
    by rewrite (decide_True (P := (up > 0)%Z)).
  - rewrite (decide_True (P := (lo > 0)%Z)) by done.
    by rewrite (decide_True (P := (up > 0)%Z)).
Qed.

(** X24. The labels passed to the chart shift when a category is empty,
    the colours passed do not: for a password with an uppercase letter,
    "Uppercase" is the first label when there is no lowercase letter and
    the second one otherwise, while [marker_colors] is the same list of
    five colours in both cases. *)
Theorem chart_labels_shift password :
  has_class Uppercase password →
  ∃ values,
    chart_values (analyze_character_distribution password) = Some values
    ∧ (¬ has_class Lowercase password →
       non_zero_labels chart_labels values !! 0 = Some "Uppercase"%string)
    ∧ (has_class Lowercase password →
       non_zero_labels chart_labels values !! 1 = Some "Uppercase"%string)
    ∧ marker_colors !! 0 = Some "#4CAF50"%string
    ∧ marker_colors !! 1 = Some "#2196F3"%string.
Proof.
  intros Hup. eexists. split; [apply chart_values_counts|].
  pose proof (count_if_pos (λ c, c ∈ class_chars Uppercase) password) as Hu.
  pose proof (count_if_pos (λ c, c ∈ class_chars Lowercase) password) as Hl.
  destruct (uppercase_position
    (count_if (λ c, c ∈ Py.ascii_lowercase) password)
    (count_if (λ c, c ∈ Py.ascii_uppercase) password)
    (count_if (λ c, c ∈ Py.digits) password)
    (count_if (λ c, c ∈ Py.punctuation) password)
    (count_if (λ c, c ∉ Py.ascii_letters ++ Py.digits ++ Py.punctuation) password))
    as [Hfirst Hsecond].
  { apply Hu in Hup. cbn [class_chars] in Hup. lia. }
  split; [|split; [|done]].
  - intros Hno. apply Hfirst. rewrite <- Hl in Hno. cbn [class_chars] in Hno. lia.
  - intros Hyes. apply Hsecond. apply Hl in Hyes. cbn [class_chars] in Hyes. lia.
Qed.

End Chart.

Section Summary.

Context `{UnicodeTables}.
Implicit Types (password : list N).

Lemma patterns_dict_sum (a b c d : Z) :
  dict_values_sum
    {[ "sequential_chars" := a; "repeated_chars" := b;
       "keyboard_patterns" := c; "common_words" := d ]}
  = (a + b + c + d)%Z.
Proof.
  rewrite !dict_values_sum_insert by (by simplify_map_eq).
  rewrite <- insert_empty, dict_values_sum_insert by done.
  rewrite dict_values_sum_empty. lia.
Qed.

(** X25. For a non-empty password the sum of the four counters of
    [find_patterns] is positive exactly when [get_suggestions], given the
    dicts the two analyzers return, returns at least one of the four
    "avoid" texts. *)
Theorem patterns_line_iff_avoid_suggestion password :
  password ≠ [] →
  ∃ patterns suggestions,
    find_patterns password = Some patterns
    ∧ analyzed_suggestions password = Some suggestions
    ∧ ((dict_values_sum patterns > 0)%Z ↔
       ∃ t, t ∈ [Text.avoid_sequential; Text.avoid_repeated;
                 Text.avoid_keyboard; Text.avoid_common]
            ∧ t ∈ suggestions).
Proof.
  intros Hne. eexists _, _.
  split; [apply find_patterns_counts|].
  split; [by apply analyzed_suggestions_fired|]. cbv zeta.
  rewrite patterns_dict_sum.
  pose proof (count_hits_nonneg (λ i, default false (sequential_at password i))
                (Py.range (Py.len password - 2))) as Hs.
  pose proof (count_hits_nonneg (λ i, default false (repeated_at password i))
                (Py.range (Py.len password - 2))) as Hr.
  pose proof (count_hits_nonneg (λ s, Py.contains (lower password) (lower s))
                keyboard_slices) as Hk.
  pose proof (count_hits_nonneg (λ w, Py.contains (lower password) w)
                common_words) as Hc.
  fold (sequential_hits password) in Hs. fold (repeated_hits password) in Hr.
  change (count_hits _ keyboard_slices) with (Py.len (keyboard_hits password)) in Hk.
  change (count_hits _ common_words) with (Py.len (common_word_hits password)) in Hc.
  split.
  - intros Hsum.
    assert ((sequential_hits password > 0)%Z ∨ (repeated_hits password > 0)%Z
            ∨ (Py.len (keyboard_hits password) > 0)%Z
            ∨ (Py.len (common_word_hits password) > 0)%Z) as Hany by lia.
    destruct Hany as [Hp|[Hp|[Hp|Hp]]];
      [exists Text.avoid_sequential|exists Text.avoid_repeated
      |exists Text.avoid_keyboard|exists Text.avoid_common];
      (split; [repeat constructor|]);
      (rewrite elem_of_shown by done); rewrite elem_of_fired; tauto.
  - intros (t & Ht & Hin).
    rewrite !elem_of_cons, elem_of_nil in Ht.
    destruct Ht as [->|[->|[->|[->|[]]]]];
      (rewrite elem_of_shown in Hin by done); rewrite elem_of_fired in Hin;
      repeat (destruct Hin as [[Hp Heq]|Hin]; [first [lia|discriminate Heq]|]);
      destruct Hin as [Hp Heq]; first [lia|discriminate Heq].
Qed.

End Summary.

Section StyleSheet.

Context `{UnicodeTables}.

(** Replacing one character by one character maps the string. *)
Lemma str_replace_char (s : list N) (a b : N) :
  str_replace s [a] [b] = (λ c, if decide (c = a) then b else c) <$> s.
Proof.
  unfold str_replace. induction s as [|c s IH]; [reflexivity|].
  simpl. rewrite IH. destruct (decide (c = a)) as [->|Hne].
  - rewrite bool_decide_eq_true_2 by done. by destruct s.
  - rewrite bool_decide_eq_false_2 by congruence. reflexivity.
Qed.

(** X26. For every score the class that [main] writes around the label is
    one of the five classes of the style sheet, and the colour of that
    class in the style sheet is the colour [get_rate_color] gives to the
    score. *)
Theorem label_class_is_styled (score : Z) :
  ∃ class color : string,
    (class, color) ∈ style_rules
    ∧ label_class (get_rate_label score) = Py.codepoints class
    ∧ get_rate_color score = color.
Proof.
  destruct (decide (0 ≤ score ≤ 4)%Z) as [Hin|Hout].
  - destruct (rate_in_range score Hin) as [->|[->|[->|[->| ->]]]].
    + exists "password-very-weak"%string, "#ff0000"%string.
      split; [repeat constructor|]. split; vm_compute; reflexivity.
    + exists "password-weak"%string, "#ff4500"%string.
      split; [repeat constructor|]. split; vm_compute; reflexivity.
    + exists "password-medium"%string, "#ffa500"%string.
      split; [repeat constructor|]. split; vm_compute; reflexivity.
    + exists "password-strong"%string, "#9acd32"%string.
      split; [repeat constructor|]. split; vm_compute; reflexivity.
    + exists "password-very-strong"%string, "#008000"%string.
      split; [repeat constructor|]. split; vm_compute; reflexivity.
  - destruct (rate_fallback score Hout) as [-> ->].
    exists "password-very-weak"%string, "#ff0000"%string.
    split; [repeat constructor|]. split; vm_compute; reflexivity.
Qed.

End StyleSheet.

(** ** Further theorems at concrete inputs *)

Section MoreExamples.

#[local] Existing Instance no_tables.

Ltac by_computation := apply (bool_decide_unpack _); vm_compute; exact I.

(** "ab1" and its reversal "1ba". *)
Lemma analysis_ignores_order_witness :
  Py.codepoints "ab1" ≡ₚ Py.codepoints "1ba"
  ∧ analyze_character_distribution (Py.codepoints "ab1")
    = analyze_character_distribution (Py.codepoints "1ba")
  ∧ analyze_entropy (Py.codepoints "ab1") = analyze_entropy (Py.codepoints "1ba").
Proof.
  assert (Py.codepoints "ab1" ≡ₚ Py.codepoints "1ba") as Hperm.
  { change (Py.codepoints "1ba") with (reverse (Py.codepoints "ab1")).
    symmetry. apply reverse_Permutation. }
  split; [exact Hperm|]. by apply analysis_ignores_order.
Defined.

(** "QwE" and "qwe" have the same lowercase form. *)
Lemma lowercase_form_decides_word_counters_witness :
  pattern_count "keyboard_patterns" (Py.codepoints "QwE")
    = pattern_count "keyboard_patterns" (Py.codepoints "qwe")
  ∧ pattern_count "common_words" (Py.codepoints "QwE")
    = pattern_count "common_words" (Py.codepoints "qwe").
Proof. apply lowercase_form_decides_word_counters. reflexivity. Defined.

Lemma short_password_has_no_pattern_witness :
  find_patterns (Py.codepoints "ab") =
    Some {[ "sequential_chars" := 0%Z; "repeated_chars" := 0%Z;
            "keyboard_patterns" := 0%Z; "common_words" := 0%Z ]}.
Proof.
  apply short_password_has_no_pattern; [by_computation|simpl; lia].
Defined.

(** "abc" inside "xabcx". *)
Lemma patterns_survive_embedding_witness :
  ∃ s r k c s' r' k' c' : Z,
    find_patterns (Py.codepoints "abc") =
      Some {[ "sequential_chars" := s; "repeated_chars" := r;
              "keyboard_patterns" := k; "common_words" := c ]}
    ∧ find_patterns (Py.codepoints "xabcx") =
      Some {[ "sequential_chars" := s'; "repeated_chars" := r';
              "keyboard_patterns" := k'; "common_words" := c' ]}
    ∧ (s ≤ s')%Z ∧ (r ≤ r')%Z ∧ (k ≤ k')%Z ∧ (c ≤ c')%Z.
Proof.
  apply patterns_survive_embedding; [by_computation|].
  by exists (Py.codepoints "x"), (Py.codepoints "x").
Defined.

(** The suggestions for "abc" with the dicts of the analyzers for "abc". *)
Lemma suggestions_shape_witness :
  let suggestions :=
    [Text.longer; Text.add_uppercase; Text.add_numbers; Text.add_special;
     Text.avoid_sequential] in
  suggestions ≠ [] ∧ length suggestions ≤ 9
  ∧ (suggestions = [Text.prompt] ∨ suggestions = [Text.looks_good]
     ∨ suggestions `sublist_of` rule_texts).
Proof.
  cbv zeta.
  apply (suggestions_shape (Py.codepoints "abc")
           (analyze_character_distribution (Py.codepoints "abc"))
           {[ "sequential_chars" := 1%Z; "repeated_chars" := 0%Z;
              "keyboard_patterns" := 0%Z; "common_words" := 0%Z ]}).
  vm_compute. reflexivity.
Defined.

(** The dicts of the analyzers for "abc" hold the eight entries. *)
Lemma suggestions_need_eight_keys_witness :
  is_Some (get_suggestions (Py.codepoints "abc")
             (analyze_character_distribution (Py.codepoints "abc"))
             {[ "sequential_chars" := 1%Z; "repeated_chars" := 0%Z;
                "keyboard_patterns" := 0%Z; "common_words" := 0%Z ]}).
Proof.
  apply suggestions_need_eight_keys; [done|].
  split; intros key Hkey; rewrite !elem_of_cons, elem_of_nil in Hkey;
    destruct Hkey as [->|[->|[->|[->|[]]]]]; vm_compute; by eexists.
Defined.

Lemma class_suggestions_meaning_witness :
  ∃ suggestions,
    analyzed_suggestions (Py.codepoints "abc") = Some suggestions
    ∧ (Text.longer ∈ suggestions ↔ length (Py.codepoints "abc") < 12)
    ∧ (Text.add_lowercase ∈ suggestions
       ↔ ¬ has_class Lowercase (Py.codepoints "abc"))
    ∧ (Text.add_uppercase ∈ suggestions
       ↔ ¬ has_class Uppercase (Py.codepoints "abc"))
    ∧ (Text.add_numbers ∈ suggestions ↔ ¬ has_class Digit (Py.codepoints "abc"))
    ∧ (Text.add_special ∈ suggestions
       ↔ ¬ has_class Punctuation (Py.codepoints "abc")).
Proof. by apply class_suggestions_meaning. Defined.

Lemma pattern_suggestions_meaning_witness :
  ∃ suggestions,
    analyzed_suggestions (Py.codepoints "abc") = Some suggestions
    ∧ (Text.avoid_sequential ∈ suggestions
       ↔ ∃ a, occurs_in [a; (a + 1)%N; (a + 2)%N] (Py.codepoints "abc"))
    ∧ (Text.avoid_repeated ∈ suggestions
       ↔ ∃ a, occurs_in [a; a; a] (Py.codepoints "abc"))
    ∧ (Text.avoid_keyboard ∈ suggestions
       ↔ ∃ s, s ∈ keyboard_slices ∧ occurs_in s (lower (Py.codepoints "abc")))
    ∧ (Text.avoid_common ∈ suggestions
       ↔ ∃ w, w ∈ common_words ∧ occurs_in w (lower (Py.codepoints "abc"))).
Proof. by apply pattern_suggestions_meaning. Defined.

(** The 16-character password of the looks-good example. *)
Lemma looks_good_exactly_when_witness :
  12 ≤ length (Py.codepoints "Xk7#mP2$vL9@qR4!")
  ∧ (∀ k, has_class k (Py.codepoints "Xk7#mP2$vL9@qR4!"))
  ∧ find_patterns (Py.codepoints "Xk7#mP2$vL9@qR4!") =
      Some {[ "sequential_chars" := 0%Z; "repeated_chars" := 0%Z;
              "keyboard_patterns" := 0%Z; "common_words" := 0%Z ]}.
Proof.
  apply (proj1 (looks_good_exactly_when (Py.codepoints "Xk7#mP2$vL9@qR4!"))).
  vm_compute. reflexivity.
Defined.

(** Score 7 is outside the table, scores 1 and 3 are inside. *)
Lemma rate_tables_witness :
  (get_rate_color 7 = get_rate_color 0 ∧ get_rate_label 7 = get_rate_label 0)
  ∧ (get_rate_label 1 = get_rate_label 3 → 1 = 3)%Z.
Proof.
  split.
  - apply (proj1 (rate_tables 7 0)). lia.
  - apply (proj2 (rate_tables 1 3)); lia.
Defined.

(** "A1" has an uppercase letter and no lowercase letter. *)
Lemma chart_labels_shift_witness :
  ∃ values,
    chart_values (analyze_character_distribution (Py.codepoints "A1"))
      = Some values
    ∧ (¬ has_class Lowercase (Py.codepoints "A1") →
       non_zero_labels chart_labels values !! 0 = Some "Uppercase"%string)
    ∧ (has_class Lowercase (Py.codepoints "A1") →
       non_zero_labels chart_labels values !! 1 = Some "Uppercase"%string)
    ∧ marker_colors !! 0 = Some "#4CAF50"%string
    ∧ marker_colors !! 1 = Some "#2196F3"%string.
Proof. apply chart_labels_shift. by_computation. Defined.

Lemma patterns_line_iff_avoid_suggestion_witness :
  ∃ patterns suggestions,
    find_patterns (Py.codepoints "abc") = Some patterns
    ∧ analyzed_suggestions (Py.codepoints "abc") = Some suggestions
    ∧ ((dict_values_sum patterns > 0)%Z ↔
       ∃ t, t ∈ [Text.avoid_sequential; Text.avoid_repeated;
                 Text.avoid_keyboard; Text.avoid_common]
            ∧ t ∈ suggestions).
Proof. by apply patterns_line_iff_avoid_suggestion. Defined.

End MoreExamples.

(** ** Entropy of long passwords *)

Section LongPasswords.

Implicit Types (password : list N).

Lemma pow_94_157 : (Rpower 2 1024 <= 94 ^ 157)%R.
Proof.
  replace 1024%R with (INR 1024) by (by rewrite INR_IZR_INZ).
  rewrite Rpower_pow by lra.
  rewrite !pow_IZR. apply IZR_le. by vm_compute.
Qed.

(** X28. A password with all four classes and at least 157 characters has
    an entropy of at least 1024 bits, the range in which
    [calculate_crack_time] raises. *)
Theorem long_password_entropy password :
  (∀ k, has_class k password) → 157 ≤ length password →
  (1024 <= analyze_entropy password)%R.
Proof.
  intros Hall%char_set_size_94 Hlen.
  apply Rnot_lt_le. intros Hlt.
  apply (Rpower_lt 2) in Hlt; [|lra].
  rewrite guesses_power, Hall in Hlt.
  pose proof pow_94_157 as Hbig.
  assert (94 ^ 157 <= 94 ^ length password)%R by (apply Rle_pow; [lra|lia]).
  lra.
Qed.

End LongPasswords.

Section LongPasswordExample.

(** Ten copies of the 16-character password of the looks-good example. *)
Lemma long_password_entropy_witness :
  (1024 <=
   analyze_entropy (mjoin (replicate 10 (Py.codepoints "Xk7#mP2$vL9@qR4!"))))%R.
Proof.
  apply long_password_entropy.
  - intros k. destruct k; apply (bool_decide_unpack _); vm_compute; exact I.
  - apply (bool_decide_unpack _). vm_compute. exact I.
Defined.

End LongPasswordExample.
